(** * sos_notebook.workflow_executor: the workflow queue and the tapped worker

    A shallow embedding of [src/sos_notebook/workflow_executor.py]:
    - [g_workflow_queue], an [OrderedDict] from cell ids to either a pending
      tuple [(code, raw_args, env.config)] or a started [Tapped_Executor];
    - [run_sos_workflow] and [cancel_workflow], the two functions that
      mutate it;
    - [Tapped_Executor.run], the body of the worker process.

    Python exceptions are values of type [Exception]; a function that may
    raise and that mutates module state is a computation in the monad [M].
    What the operating system answers (process liveness, the outcome of
    [start], of setting up the sockets, of writing the script and of
    [pexpect_run]) is read from an oracle record passed to each call.  Calls
    to [env.log_to_file] only write a log file and are left out. *)

From stdpp Require Import base option list gmap strings pretty.

Open Scope string_scope.

(** ** Exceptions and the state-and-exception monad *)

Record Exception := mkException { exc_type : string; exc_str : string }.

Definition RuntimeError (m : string) : Exception := mkException "RuntimeError" m.
Definition StopIteration : Exception := mkException "StopIteration" "".
Definition ValueError (m : string) : Exception := mkException "ValueError" m.
Definition TypeError (m : string) : Exception := mkException "TypeError" m.
Definition AttributeError (m : string) : Exception := mkException "AttributeError" m.
Definition ZMQError (m : string) : Exception := mkException "ZMQError" m.

(** An exception is given by the name of its class and its [str].  The
    builtin classes that derive from [BaseException] and not from
    [Exception]: an [except Exception] clause lets them through. *)
Definition BaseException_only : list string :=
  ["BaseException"; "SystemExit"; "KeyboardInterrupt"; "GeneratorExit"].

(** [isinstance(e, Exception)] *)
Definition is_Exception (e : Exception) : bool :=
  bool_decide (exc_type e ∉ BaseException_only).

Inductive outcome (A : Type) : Type :=
| Returned (a : A)
| Raised (e : Exception).
Arguments Returned {A} a.
Arguments Raised {A} e.

Definition M (S A : Type) : Type := S → outcome A * S.

Definition ret {S A} (a : A) : M S A := λ s, (Returned a, s).
Definition raise {S A} (e : Exception) : M S A := λ s, (Raised e, s).
Definition bind {S A B} (m : M S A) (k : A → M S B) : M S B :=
  λ s, match m s with
       | (Returned a, s') => k a s'
       | (Raised e, s') => (Raised e, s')
       end.
Definition gets {S A} (f : S → A) : M S A := λ s, (Returned (f s), s).
Definition modify {S} (f : S → S) : M S unit := λ s, (Returned tt, f s).

(** A call into a library that raised [e], or returned. *)
Definition check {S} (r : option Exception) : M S unit :=
  match r with
  | Some e => raise e
  | None => ret tt
  end.

(** [try: body except Exception as e: handler e]: what is raised and is
    not an [Exception] passes the clause. *)
Definition try_except {S A} (body : M S A) (handler : Exception → M S A) : M S A :=
  λ s, match body s with
       | (Returned a, s') => (Returned a, s')
       | (Raised e, s') => if is_Exception e then handler e s' else (Raised e, s')
       end.

(** [try: body finally: fin]: [fin] always runs; what [body] returned or
    raised is kept unless [fin] itself raises. *)
Definition try_finally {S A} (body : M S A) (fin : M S unit) : M S A :=
  λ s, let '(r, s') := body s in
       match fin s' with
       | (Returned _, s'') => (r, s'')
       | (Raised e, s'') => (Raised e, s'')
       end.

Notation "'call' x := c 'in' k" := (bind c (λ x, k))
  (at level 10, x name, c at level 100, k at level 200, only parsing).
Notation "'exec' c 'in' k" := (bind c (λ _, k))
  (at level 10, c at level 100, k at level 200, only parsing).

(** ** Configuration dictionaries

    [env.config] is the [defaultdict(str)] of [sos.utils.env].  The keys
    this module reads or writes are fields; [None] is an absent key: reading
    it with [d[k]] inserts it with [str()], the empty string, and gives that.
    All other options ([run_mode], [max_procs], [workdir], ...) are threaded
    through unchanged in [options]. *)

Record Sockets := mkSockets {
  tapping_logging : Z;
  tapping_listener : Z;
  tapping_controller : Z;
}.

Record Config := mkConfig {
  slave_id : option string;
  sockets : option Sockets;
  options : gmap string string;
}.

(** [d['slave_id'] = v] *)
Definition set_slave_id (v : string) (d : Config) : Config :=
  {| slave_id := Some v; sockets := sockets d; options := options d |}.

(** [d.update(other)]: the keys of [other] win. *)
Definition update (d other : Config) : Config :=
  {| slave_id := from_option Some (slave_id d) (slave_id other);
     sockets := from_option Some (sockets d) (sockets other);
     options := options other ∪ options d |}.

(** Config objects live in a heap: a tuple in the queue holds a reference
    to [env.config], not a copy of it. *)
Definition loc := positive.

(** ** Queue entries *)

(** A [Tapped_Executor] after [start()], as the parent process sees it. *)
Record Tapped_Executor := mkExecutor {
  self_code : string;
  self_args : string;
  self_config : loc;
  pid : Z;
}.

Inductive QueueEntry :=
| Tuple (code raw_args : string) (config : loc)
| Executor (proc : Tapped_Executor).

(** [isinstance(y, tuple)] *)
Definition is_tuple (y : QueueEntry) : bool :=
  match y with Tuple _ _ _ => true | Executor _ => false end.

(** ** [OrderedDict] operations, on a list of items in insertion order *)

Section OrderedDict.
Context {V : Type}.
Implicit Types (d : list (string * V)) (k : string) (v : V).

(** [d.keys()] *)
Definition keys d : list string := d.*1.

(** [d.get(k)] *)
Fixpoint od_get k d : option V :=
  match d with
  | [] => None
  | (k', v') :: d' => if decide (k' = k) then Some v' else od_get k d'
  end.

(** [k in d] *)
Definition od_mem k d : bool := bool_decide (is_Some (od_get k d)).

(** [d[k] = v]: an existing key keeps its place, a new key goes last. *)
Fixpoint od_set k v d : list (string * V) :=
  match d with
  | [] => [(k, v)]
  | (k', v') :: d' =>
      if decide (k' = k) then (k, v) :: d' else (k', v') :: od_set k v d'
  end.

(** [d.pop(k)]; the only call, line 287, comes after the membership test of
    line 277, so the [KeyError] of an absent key is not modelled. *)
Fixpoint od_pop k d : list (string * V) :=
  match d with
  | [] => []
  | (k', v') :: d' =>
      if decide (k' = k) then d' else (k', v') :: od_pop k d'
  end.
End OrderedDict.

(** [l.index(x)] *)
Fixpoint index (x : string) (l : list string) : option nat :=
  match l with
  | [] => None
  | y :: l' => if decide (y = x) then Some 0 else S <$> index x l'
  end.

(** ** Messages and observable effects of the supervisor *)

(** The payload dict of a ['workflow_status'] message, as sent to the
    front end (lines 262-267 and 273-276) and on the informer socket (lines
    205-221); [msg] and [exception] are keys that may be absent. *)
Record StatusMsg := mkStatusMsg {
  cell_id : string;
  status : string;
  msg : option string;
  exception : option string;
}.

Inductive Event :=
| send_frontend_msg (msg_type : string) (m : StatusMsg)
| kill_all_subprocesses (p : Z) (include_self : bool)
| terminate (p : Z)
| start (proc : Tapped_Executor) (forked_config : option Config).

(** What the operating system answers during one call. *)
Record World := mkWorld {
  is_alive : Z → bool;               (* proc.is_alive() *)
  pid_exists : Z → bool;             (* psutil.pid_exists(pid) *)
  pid_exists_after_kill : Z → bool;  (* the same, after the kill at lines 283-284 *)
  start_outcome : Exception + Z;     (* executor.start(): raises, or the new pid *)
}.

(** Module state: [g_workflow_queue], the config heap with the object
    [env.config] is bound to, and the effects so far, oldest first. *)
Record State := mkState {
  g_workflow_queue : list (string * QueueEntry);
  heap : gmap loc Config;
  env_config : loc;
  events : list Event;
}.

Definition set_queue (f : list (string * QueueEntry) → list (string * QueueEntry))
    (st : State) : State :=
  {| g_workflow_queue := f (g_workflow_queue st); heap := heap st;
     env_config := env_config st; events := events st |}.

Definition set_heap (f : gmap loc Config → gmap loc Config) (st : State) : State :=
  {| g_workflow_queue := g_workflow_queue st; heap := f (heap st);
     env_config := env_config st; events := events st |}.

Definition log (evs : list Event) (st : State) : State :=
  {| g_workflow_queue := g_workflow_queue st; heap := heap st;
     env_config := env_config st; events := events st ++ evs |}.

Definition emit (ev : Event) : M State unit := modify (log [ev]).

(** [y.is_alive() and psutil.pid_exists(y.pid)] *)
Definition running (w : World) (proc : Tapped_Executor) : bool :=
  is_alive w (pid proc) && pid_exists w (pid proc).

(** ** [cancel_workflow] (lines 270-287) *)

Definition cancel_workflow (w : World) (cell : string) : M State unit :=
  exec emit (send_frontend_msg "workflow_status"
               {| cell_id := cell; status := "aborted"; msg := None;
                  exception := None |}) in
  call queue := gets g_workflow_queue in
  match od_get cell queue with
  | None => ret tt
  | Some proc =>
      exec (match proc with
            | Tuple _ _ _ => ret tt
            | Executor proc =>
                if running w proc then
                  exec emit (kill_all_subprocesses (pid proc) true) in
                  exec emit (terminate (pid proc)) in
                  if pid_exists_after_kill w (pid proc)
                  then raise (RuntimeError "Failed to kill workflow")
                  else ret tt
                else ret tt
            end) in
      modify (set_queue (od_pop cell))
  end.

(** ** [run_sos_workflow] (lines 237-267) *)

(** The filter of lines 248-250. *)
Definition valid (w : World) (item : string * QueueEntry) : bool :=
  match item.2 with
  | Tuple _ _ _ => true
  | Executor y => running w y
  end.

(** [f'#{i + 1} in queue'] *)
Definition position_msg (i : nat) : string :=
  "#" +:+ pretty (i + 1)%nat +:+ " in queue".

Definition run_sos_workflow (w : World) (code raw_args : string)
    (kernel_cell_id : string) : M State unit :=
  call queue := gets g_workflow_queue in
  exec (if od_mem kernel_cell_id queue
        then cancel_workflow w kernel_cell_id else ret tt) in
  call config := gets env_config in
  exec modify (set_queue (od_set kernel_cell_id (Tuple code raw_args config))) in
  exec modify (set_queue (List.filter (valid w))) in
  call queue := gets g_workflow_queue in
  match queue with
  | [] => raise StopIteration
  | (cell, item) :: _ =>
      exec (match item with
            | Tuple code raw_args config =>
                call env := gets env_config in
                exec modify (set_heap (alter (set_slave_id cell) env)) in
                match start_outcome w with
                | inl e => raise e
                | inr p =>
                    let executor := mkExecutor code raw_args config p in
                    call h := gets heap in
                    exec emit (start executor (h !! config)) in
                    modify (set_queue (od_set cell (Executor executor)))
                end
            | Executor _ => ret tt
            end) in
      call queue := gets g_workflow_queue in
      match index kernel_cell_id (keys queue) with
      | None => raise (ValueError (kernel_cell_id +:+ " is not in list"))
      | Some i =>
          emit (send_frontend_msg "workflow_status"
                  {| cell_id := kernel_cell_id; status := "pending";
                     msg := Some (position_msg i); exception := None |})
      end
  end.

(** The call as line 237 declares it: [kernel] defaults to [None], and line
    238 reads [kernel.cell_id] before anything else.  A kernel is given by
    its [cell_id]. *)
Definition run_sos_workflow_kernel (w : World) (code raw_args : string)
    (kernel : option string) : M State unit :=
  match kernel with
  | None => raise (AttributeError "'NoneType' object has no attribute 'cell_id'")
  | Some kernel_cell_id => run_sos_workflow w code raw_args kernel_cell_id
  end.

(** ** [Tapped_Executor.run] (lines 185-227), the body of the worker process *)

Inductive Socket := stdout_socket | informer_socket.

Inductive WorkerEvent :=
| connect (s : Socket) (addr : string)
| write (filename content : string)
| send_multipart (s : Socket) (parts : list string)
| send_pyobj (s : Socket) (msg_type : string) (data : StatusMsg)
| set_LINGER (s : Socket) (v : Z)
| close (s : Socket)
| term.

(** What the worker process finds outside this module: whether
    [zmq.Context()] (line 188), [context.socket(zmq.PUSH)] (lines 189, 193)
    and [connect] to an address (lines 190, 194) raise; [env.exec_dir];
    whether writing the script raises; and what [pexpect_run] does with a
    command line: the output chunks it relays on the stdout socket, then a
    return code or an exception.  Sending on a connected [PUSH] socket queues
    the message; sending, closing and [context.term()] are taken not to
    raise. *)
Record Engine := mkEngine {
  zmq_Context : option Exception;
  zmq_socket : Socket → option Exception;
  zmq_connect : Socket → string → option Exception;
  exec_dir : string;
  open_write : string → string → option Exception;
  pexpect_run : string → list (list string) * (Exception + Z);
}.

(** The memory of the worker process: the object [env.config], the object
    [self.config], and what the worker has done so far, oldest first.  In a
    forked worker [self.config] is [env.config] itself, since the tuple in
    the queue held a reference to it: that is [None].  In a spawned worker
    it is the unpickled copy, an object of its own. *)
Record Worker := mkWorker {
  worker_env_config : Config;
  worker_self_config : option Config;
  done_events : list WorkerEvent;
}.

(** The contents of [self.config]. *)
Definition self_config_of (wk : Worker) : Config :=
  default (worker_env_config wk) (worker_self_config wk).

(** A change made through [env.config]. *)
Definition set_env_config (f : Config → Config) (wk : Worker) : Worker :=
  {| worker_env_config := f (worker_env_config wk);
     worker_self_config := worker_self_config wk;
     done_events := done_events wk |}.

(** A change made through [self.config]. *)
Definition set_self_config (f : Config → Config) (wk : Worker) : Worker :=
  match worker_self_config wk with
  | None => set_env_config f wk
  | Some c => {| worker_env_config := worker_env_config wk;
                 worker_self_config := Some (f c);
                 done_events := done_events wk |}
  end.

Definition do_all (evs : list WorkerEvent) : M Worker unit :=
  modify (λ wk, {| worker_env_config := worker_env_config wk;
                   worker_self_config := worker_self_config wk;
                   done_events := done_events wk ++ evs |}).

Definition do (ev : WorkerEvent) : M Worker unit := do_all [ev].

(** [d['slave_id']] on the [defaultdict(str)] that [d] reads and [setitem]
    changes: a missing key is inserted with [''], which is the value read. *)
Definition getitem_slave_id (d : Worker → Config)
    (setitem : (Config → Config) → Worker → Worker) : M Worker string :=
  λ wk, match slave_id (d wk) with
        | Some v => (Returned v, wk)
        | None => (Returned "", setitem (set_slave_id "") wk)
        end.

(** [self.config["sockets"][...]], up to the port asked for: a missing
    ['sockets'] reads as [''], and indexing that [str] with the name of a
    port raises [TypeError] (with this text up to Python 3.10).  The record
    has no field value for the [''] the read has inserted; the field stays
    [None], which reads the same. *)
Definition getitem_sockets : M Worker Sockets :=
  λ wk, match sockets (self_config_of wk) with
        | Some socks => (Returned socks, wk)
        | None => (Raised (TypeError "string indices must be integers"), wk)
        end.

(** [a.endswith('/')] *)
Definition ends_with_slash (a : string) : bool :=
  bool_decide (String.substring (String.length a - 1) 1 a = "/").

(** [os.path.join] of [posixpath], for two components. *)
Definition os_path_join (a b : string) : string :=
  if String.prefix "/" b then b
  else if bool_decide (a = "") || ends_with_slash a then a +:+ b
  else a +:+ "/" +:+ b.

Definition tcp (port : Z) : string := "tcp://127.0.0.1:" +:+ pretty port.

(** Line 198: [os.path.join(env.exec_dir, '.sos', 'interactive.sos')]. *)
Definition script_file (o : Engine) : string :=
  os_path_join (os_path_join (exec_dir o) ".sos") "interactive.sos".

(** Line 202: the command line of the engine. *)
Definition command (filename args slave : string) (socks : Sockets) : string :=
  "sos run " +:+ filename +:+ " " +:+ args
  +:+ " -m tapping slave " +:+ slave
  +:+ " " +:+ pretty (tapping_logging socks)
  +:+ " " +:+ pretty (tapping_listener socks)
  +:+ " " +:+ pretty (tapping_controller socks).

Definition completed (cell : string) : StatusMsg :=
  {| cell_id := cell; status := "completed"; msg := None; exception := None |}.

Definition failed (cell : string) (e : Exception) : StatusMsg :=
  {| cell_id := cell; status := "failed"; msg := None;
     exception := Some (exc_str e) |}.

(** The context, the sockets and both [connect] calls come before the
    [try]: what they raise leaves [run] with no handler and no [finally]
    block.  [ret_code] is bound at line 203 and never read. *)
Definition Tapped_Executor_run (o : Engine) (code args : string) : M Worker unit :=
  exec modify (λ wk, set_env_config (λ env, update env (self_config_of wk)) wk) in
  exec check (zmq_Context o) in
  exec check (zmq_socket o stdout_socket) in
  call socks := getitem_sockets in
  exec check (zmq_connect o stdout_socket (tcp (tapping_logging socks))) in
  exec do (connect stdout_socket (tcp (tapping_logging socks))) in
  exec check (zmq_socket o informer_socket) in
  call socks := getitem_sockets in
  exec check (zmq_connect o informer_socket (tcp (tapping_listener socks))) in
  exec do (connect informer_socket (tcp (tapping_listener socks))) in
  try_finally
    (try_except
       (let filename := script_file o in
        exec check (open_write o filename code) in
        exec do (write filename code) in
        call slave := getitem_slave_id self_config_of set_self_config in
        call socks := getitem_sockets in
        let cmd := command filename args slave socks in
        exec do_all (send_multipart stdout_socket <$> (pexpect_run o cmd).1) in
        call ret_code := (match (pexpect_run o cmd).2 with
                          | inl e => raise e
                          | inr rc => ret rc
                          end) in
        call cell := getitem_slave_id worker_env_config set_env_config in
        do (send_pyobj informer_socket "workflow_status" (completed cell)))
       (λ e,
        exec do (send_multipart stdout_socket ["ERROR"; exc_str e]) in
        call cell := getitem_slave_id worker_env_config set_env_config in
        do (send_pyobj informer_socket "workflow_status" (failed cell e))))
    (exec do (set_LINGER stdout_socket 0) in
     exec do (close stdout_socket) in
     exec do (set_LINGER informer_socket 0) in
     exec do (close informer_socket) in
     do term).

(** The ['workflow_status'] payloads a worker sent on the informer socket. *)
Definition informed (evs : list WorkerEvent) : list StatusMsg :=
  omap (λ ev, match ev with
              | send_pyobj informer_socket _ data => Some data
              | _ => None
              end) evs.

(** A worker that the supervisor kills (lines 283-284) when it has made [n]
    steps of [run]: a killed process runs no handler and no [finally] block,
    so what it has done is what it had done before and the first [n] steps
    of what [run] would have done. *)
Definition killed_after (n : nat) (run : M Worker unit) (wk : Worker)
    : list WorkerEvent :=
  take (length (done_events wk) + n) (done_events (run wk).2).

(** ** Callers: sequences of submit and cancel calls *)

Inductive Call :=
| submit (code raw_args cell : string)
| cancel (cell : string).

(** The cell a call is about. *)
Definition target (c : Call) : string :=
  match c with
  | submit _ _ cell => cell
  | cancel cell => cell
  end.

Definition perform (w : World) (c : Call) : M State unit :=
  match c with
  | submit code raw_args cell => run_sos_workflow w code raw_args cell
  | cancel cell => cancel_workflow w cell
  end.

(** A sequence of calls, each with what the operating system answers
    during it; a call that raises leaves its state to the next one. *)
Fixpoint perform_all (calls : list (World * Call)) (st : State) : State :=
  match calls with
  | [] => st
  | (w, c) :: calls => perform_all calls (perform w c st).2
  end.

(** The module as imported: line 234, with [env.config] at [env] in [h]. *)
Definition imported (h : gmap loc Config) (env : loc) : State := mkState [] h env [].

(** The states a caller can observe: the module as imported, and the state
    left by any call, whether it returned or raised, whatever the operating
    system answered during it. *)
Inductive reachable : State → Prop :=
| reach_import h env : reachable (imported h env)
| reach_call st w c : reachable st → reachable (perform w c st).2.

(** ** Notions used in the statements *)

(** Every entry behind the first one is a pending tuple. *)
Definition single_flight (queue : list (string * QueueEntry)) : Prop :=
  Forall (λ item, is_tuple item.2 = true) (tail queue).

(** The entries that hold a worker handle. *)
Definition executors (queue : list (string * QueueEntry)) : list (string * QueueEntry) :=
  List.filter (λ item, negb (is_tuple item.2)) queue.

(** The message of lines 273-276. *)
Definition aborted (cell : string) : Event :=
  send_frontend_msg "workflow_status"
    {| cell_id := cell; status := "aborted"; msg := None; exception := None |}.

(** The message of lines 262-267, for index [i] in the queue. *)
Definition pending (cell : string) (i : nat) : Event :=
  send_frontend_msg "workflow_status"
    {| cell_id := cell; status := "pending"; msg := Some (position_msg i);
       exception := None |}.

(** Lines 262-267 on a given state: the position message of [cell], or the
    [ValueError] of [list.index]. *)
Definition report (cell : string) (st : State) : outcome unit * State :=
  match index cell (keys (g_workflow_queue st)) with
  | None => (Raised (ValueError (cell +:+ " is not in list")), st)
  | Some i => (Returned tt, log [pending cell i] st)
  end.



(** Every entry of the queue refers to the one object [env.config]. *)
Definition aliased (st : State) : Prop :=
  Forall (λ item, match item.2 with
                  | Tuple _ _ l => l = env_config st
                  | Executor proc => self_config proc = env_config st
                  end) (g_workflow_queue st).

(** A worker was forked with a ['slave_id'] in its config. *)
Definition forked_with_slave_id (ev : Event) : Prop :=
  match ev with
  | start _ (Some c) => is_Some (slave_id c)
  | _ => True
  end.

(** ** [NotebookLoggingHandler] (lines 36-53) *)

(** The attributes of a [logging.LogRecord] that [emit] reads. *)
Record LogRecord := mkLogRecord {
  levelname : string;
  record_msg : string;
}.

(** What [emit] asks of the kernel: [send_frontend_msg('display_data', ...)]
    with the html of the ['text/html'] entry, and
    [send_response(iopub_socket, 'stream', {'name': ..., 'text': ...})]. *)
Inductive KernelEvent :=
| display_data (html title : string) (append : bool) (page : string)
| stream (name text : string).

(** The handler: [kernel] is [None] unless one is given (line 37). *)
Record NotebookLoggingHandler := mkHandler {
  handler_level : Z;
  handler_kernel : option unit;
  handler_title : string;
}.

(** [setTitle] (lines 42-43) *)
Definition setTitle (title : string) (self : NotebookLoggingHandler)
    : NotebookLoggingHandler :=
  {| handler_level := handler_level self; handler_kernel := handler_kernel self;
     handler_title := title |}.

Definition backtick : Ascii.ascii := Ascii.ascii_of_nat 96.
Definition dquote : string := String (Ascii.ascii_of_nat 34) EmptyString.

(** The longest prefix without a backtick, and what follows it. *)
Fixpoint span_plain (s : string) : string * string :=
  match s with
  | EmptyString => (EmptyString, EmptyString)
  | String c s' =>
      if Ascii.eqb c backtick then (EmptyString, s)
      else let '(x, rest) := span_plain s' in (String c x, rest)
  end.

(** A match of the pattern of line 46 at the start of [s]: two backticks,
    the longest run of other characters (the class [[^`]*] cannot give a
    backtick back, so no shorter run can match), two backticks.  The result
    is group 1. *)
Definition match_marker (s : string) : option string :=
  match s with
  | String c1 (String c2 s') =>
      if Ascii.eqb c1 backtick && Ascii.eqb c2 backtick then
        match span_plain s' with
        | (x, String c3 (String c4 _)) =>
            if Ascii.eqb c3 backtick && Ascii.eqb c4 backtick then Some x else None
        | _ => None
        end
      else None
  | _ => None
  end.

(** [<span class="sos_highlight">\1</span>] *)
Definition sos_highlight (x : string) : string :=
  "<span class=" +:+ dquote +:+ "sos_highlight" +:+ dquote +:+ ">" +:+ x
  +:+ "</span>".

(** [re.sub] with the pattern and template of lines 46-47: the string is
    scanned from the left; where the pattern matches, the match is replaced
    and the scan goes on behind it ([skip] counts the characters of the
    match still to pass); elsewhere the character is kept. *)
Fixpoint re_sub_from (skip : nat) (s : string) : string :=
  match s with
  | EmptyString => EmptyString
  | String c s' =>
      match skip with
      | S skip' => re_sub_from skip' s'
      | O =>
          match match_marker s with
          | Some x => sos_highlight x +:+ re_sub_from (3 + String.length x) s'
          | None => String c (re_sub_from 0 s')
          end
      end
  end.

Definition re_sub (s : string) : string := re_sub_from 0 s.

(** [str.lower] on a string of ASCII characters: the letters [A] to [Z]
    go to [a] to [z]. *)
Definition lower_ascii (c : Ascii.ascii) : Ascii.ascii :=
  let n := Ascii.nat_of_ascii c in
  if (65 <=? n)%nat && (n <=? 90)%nat then Ascii.ascii_of_nat (n + 32) else c.

Fixpoint ascii_lower (s : string) : string :=
  match s with
  | EmptyString => EmptyString
  | String c s' => String (lower_ascii c) (ascii_lower s')
  end.

(** [s.isascii()] *)
Fixpoint isascii (s : string) : bool :=
  match s with
  | EmptyString => true
  | String c s' => (Ascii.nat_of_ascii c <? 128)%nat && isascii s'
  end.

(** [s.lower()].  A string here is a sequence of bytes; what the Unicode
    case mapping makes of a string with other than ASCII characters is
    [unicode_lower], left open. *)
Definition lower (unicode_lower : string → string) (s : string) : string :=
  if isascii s then ascii_lower s else unicode_lower s.

(** [emit] (lines 45-53), on the trace of what the kernel was asked. *)
Definition emit_record (unicode_lower : string → string)
    (self : NotebookLoggingHandler) (record : LogRecord)
    : M (list KernelEvent) unit :=
  let msg := re_sub (record_msg record) in
  match handler_kernel self with
  | None =>
      raise (AttributeError
               "'NoneType' object has no attribute 'send_frontend_msg'")
  | Some _ =>
      exec modify (λ sent : list KernelEvent,
             (sent ++ [display_data
                ("<div class=" +:+ dquote +:+ "sos_logging sos_"
                 +:+ lower unicode_lower (levelname record) +:+ dquote +:+ ">"
                 +:+ levelname record +:+ ": " +:+ msg +:+ "</div>")
                (handler_title self) true "SoS"])%list) in
      modify (λ sent : list KernelEvent,
                (sent ++ [stream "stdout" (record_msg record)])%list)
  end.

(** A string without a backtick. *)
Definition plain (s : string) : Prop := (span_plain s).2 = EmptyString.

(** ** Further notions used in the statements *)

(** What ends every run of the worker: lines 223-227. *)
Definition closing : list WorkerEvent :=
  [set_LINGER stdout_socket 0; close stdout_socket;
   set_LINGER informer_socket 0; close informer_socket; term].

(** An entry that is not a worker found dead by this call: a pending tuple,
    a worker that answered alive, or the worker this call has started. *)
Definition pending_or_live (w : World) (item : string * QueueEntry) : Prop :=
  match item.2 with
  | Tuple _ _ _ => True
  | Executor proc => running w proc = true ∨ start_outcome w = inr (pid proc)
  end.

(** The events a call has added to those of [st]. *)
Definition added (st st' : State) : list Event :=
  drop (length (events st)) (events st').

(** The worker of [proc], as forked from [cfg]: its [env.config] is the
    forked copy of the object its [config] refers to, and [self.config] is
    that same object. *)
Definition forked (cfg : Config) : Worker :=
  {| worker_env_config := cfg; worker_self_config := None; done_events := [] |}.

(** The worker of [proc], as forked from [cfg], runs on engine [o]. *)
Definition forked_run (o : Engine) (proc : Tapped_Executor) (cfg : Config)
    : outcome unit * Worker :=
  Tapped_Executor_run o (self_code proc) (self_args proc) (forked cfg).

(** Lines 188-195 raise nothing: the context and both sockets are made and
    both [connect] calls go through. *)
Definition set_up (o : Engine) (socks : Sockets) : Prop :=
  zmq_Context o = None
  ∧ zmq_socket o stdout_socket = None
  ∧ zmq_connect o stdout_socket (tcp (tapping_logging socks)) = None
  ∧ zmq_socket o informer_socket = None
  ∧ zmq_connect o informer_socket (tcp (tapping_listener socks)) = None.

(** The cell a worker answers for, as lines 186 and 208 find it: the
    ['slave_id'] of [self.config], else that of [env.config], else ['']. *)
Definition answers_for (wk : Worker) : string :=
  match slave_id (self_config_of wk) with
  | Some cell => cell
  | None => default "" (slave_id (worker_env_config wk))
  end.

(** The command line the worker runs: line 202, with [''] for a missing
    ['slave_id']. *)
Definition command_of (o : Engine) (args : string) (wk : Worker) (socks : Sockets)
    : string :=
  command (script_file o) args (default "" (slave_id (self_config_of wk))) socks.

(** What the [try] block meets at lines 198-204: the exception that
    [open] or [pexpect_run] raises, or [None] when the script is written and
    the engine returns. *)
Definition met (o : Engine) (code args : string) (wk : Worker) (socks : Sockets)
    : option Exception :=
  match open_write o (script_file o) code with
  | Some e => Some e
  | None =>
      match (pexpect_run o (command_of o args wk socks)).2 with
      | inl e => Some e
      | inr _ => None
      end
  end.

(** What the worker does at lines 198-204: nothing when the script cannot
    be written, else the script and what the engine prints. *)
Definition relayed (o : Engine) (code args : string) (wk : Worker) (socks : Sockets)
    : list WorkerEvent :=
  match open_write o (script_file o) code with
  | Some _ => []
  | None =>
      write (script_file o) code
      :: (send_multipart stdout_socket
            <$> (pexpect_run o (command_of o args wk socks)).1)
  end.

(** What the worker sends last, lines 205-221, for what the [try] block has
    met. *)
Definition terminal (cell : string) (res : option Exception) : list WorkerEvent :=
  match res with
  | None => [send_pyobj informer_socket "workflow_status" (completed cell)]
  | Some e =>
      if is_Exception e
      then [send_multipart stdout_socket ["ERROR"; exc_str e];
            send_pyobj informer_socket "workflow_status" (failed cell e)]
      else []
  end.

(** Every worker handle in the queue was forked with the id of its cell as
    ['slave_id'], and with the sockets [env.config] has. *)
Definition forked_for_its_cell (st : State) : Prop :=
  ∀ cell proc c',
    (cell, Executor proc) ∈ g_workflow_queue st →
    heap st !! env_config st = Some c' →
    ∃ c, start proc (Some c) ∈ events st
         ∧ slave_id c = Some cell ∧ sockets c = sockets c'.

(** Not one of the closing steps of lines 223-227. *)
Definition before_close (ev : WorkerEvent) : Prop :=
  match ev with
  | set_LINGER _ _ | close _ | term => False
  | _ => True
  end.

(** ** Sample inputs *)

(** Answers of the operating system: every worker asked about is alive or
    not, survives a kill or not, and [start] gives [started]. *)
Definition world (alive survives : bool) (started : Exception + Z) : World :=
  {| is_alive := λ _, alive; pid_exists := λ _, alive;
     pid_exists_after_kill := λ _, survives; start_outcome := started |}.

Definition sample_config : Config :=
  {| slave_id := None;
     sockets := Some (mkSockets 5001 5002 5003);
     options := {[ "run_mode" := "interactive" ]} |}.

Definition sample_import : State := imported {[ 1%positive := sample_config ]} 1%positive.

(** An engine: the context and the sockets are made, [connect] refuses
    port [-1] as libzmq does, the script is written, and [pexpect_run]
    relays one line and gives [res]. *)
Definition engine (res : Exception + Z) : Engine :=
  {| zmq_Context := None;
     zmq_socket := λ _, None;
     zmq_connect := λ _ addr,
       if bool_decide (addr = tcp (-1))
       then Some (ZMQError "Invalid argument") else None;
     exec_dir := "/home/user";
     open_write := λ _ _, None;
     pexpect_run := λ _, ([["PRINT"; "A"; "1"]], res) |}.

Definition sample_worker_config : Config := set_slave_id "A" sample_config.

(** The worker forked for cell [A]. *)
Definition fresh_worker : Worker := forked sample_worker_config.


(** * Properties *)

(** ** The ordered dict *)

Section OrderedDictFacts.
Context {V : Type}.
Implicit Types (d : list (string * V)) (k : string) (v : V).

Lemma od_get_None k d : od_get k d = None ↔ k ∉ keys d.
Proof.
  unfold keys. induction d as [|[k' v'] d IH]; simpl.
  - split; [intros _; apply not_elem_of_nil | done].
  - rewrite not_elem_of_cons. case_decide; subst.
    + split; [done | by intros [? _]].
    + rewrite IH. split; [done | by intros [_ ?]].
Qed.

Lemma od_mem_false k d : od_mem k d = false ↔ k ∉ keys d.
Proof.
  unfold od_mem. rewrite bool_decide_eq_false, <- od_get_None.
  rewrite <- eq_None_not_Some. done.
Qed.

Lemma od_set_fresh k v d : k ∉ keys d → od_set k v d = (d ++ [(k, v)])%list.
Proof.
  unfold keys. induction d as [|[k' v'] d IH]; simpl; [done|].
  rewrite not_elem_of_cons. intros [Hne Hd].
  case_decide; [congruence|]. by rewrite IH.
Qed.
End OrderedDictFacts.

Lemma index_Some x l : x ∈ l → is_Some (index x l).
Proof.
  induction l as [|y l IH]; simpl.
  - intros H. by apply elem_of_nil in H.
  - intros H. case_decide; [eauto|].
    apply elem_of_cons in H as [->|H]; [done|].
    destruct (IH H) as [i ->]. eauto.
Qed.

Lemma index_lookup x l i : index x l = Some i → l !! i = Some x.
Proof.
  revert i. induction l as [|y l IH]; simpl; intros i; [done|].
  case_decide; subst.
  - by intros [= <-].
  - destruct (index x l) as [j|]; simpl; [|done]. intros [= <-]. by apply IH.
Qed.

(** ** State updates *)

Lemma log_log evs evs' st : log evs' (log evs st) = log (evs ++ evs') st.
Proof. unfold log; simpl. by rewrite <- (assoc_L (++)). Qed.

(** ** [cancel_workflow], case by case *)

Lemma cancel_workflow_cases w cell st :
  cancel_workflow w cell st =
    match od_get cell (g_workflow_queue st) with
    | None => (Returned tt, log [aborted cell] st)
    | Some (Tuple _ _ _) =>
        (Returned tt, set_queue (od_pop cell) (log [aborted cell] st))
    | Some (Executor proc) =>
        if running w proc then
          if pid_exists_after_kill w (pid proc) then
            (Raised (RuntimeError "Failed to kill workflow"),
             log [aborted cell; kill_all_subprocesses (pid proc) true;
                  terminate (pid proc)] st)
          else
            (Returned tt,
             set_queue (od_pop cell)
               (log [aborted cell; kill_all_subprocesses (pid proc) true;
                     terminate (pid proc)] st))
        else (Returned tt, set_queue (od_pop cell) (log [aborted cell] st))
    end.
Proof.
  unfold cancel_workflow, bind, emit, modify, gets, aborted; simpl.
  destruct (od_get cell (g_workflow_queue st)) as [[c a l|proc]|]; try done.
  destruct (running w proc); [|done].
  rewrite !log_log; simpl.
  destruct (pid_exists_after_kill w (pid proc)); done.
Qed.

(** C7.Cancelling a cell id that is not in the queue sends the aborted
    notification, returns without raising, and leaves the queue (and the
    rest of the module state) as it was.  The notification is sent before
    the queue is consulted: every call of [cancel_workflow] sends it first,
    whatever the queue holds. *)
Theorem cancel_absent_is_noop (w : World) (cell : string) (st : State) :
  cell ∉ keys (g_workflow_queue st) →
  cancel_workflow w cell st = (Returned tt, log [aborted cell] st)
  ∧ g_workflow_queue (cancel_workflow w cell st).2 = g_workflow_queue st
  ∧ ∀ w' st', ∃ rest, events (cancel_workflow w' cell st').2
                      = (events st' ++ aborted cell :: rest)%list.
Proof.
  intros Habs%od_get_None. split_and!.
  - by rewrite cancel_workflow_cases, Habs.
  - by rewrite cancel_workflow_cases, Habs.
  - intros w' st'. rewrite cancel_workflow_cases.
    destruct (od_get cell (g_workflow_queue st')) as [[c a l|proc]|];
      [by exists []| |by exists []].
    destruct (running w' proc); [|by exists []].
    destruct (pid_exists_after_kill w' (pid proc)); by eexists.
Qed.

(** C5.  Cancelling a cell id whose entry is a live worker that survives
    [kill_all_subprocesses] and [terminate] raises
    [RuntimeError('Failed to kill workflow')]; the entry stays in the
    queue. *)
Theorem cancel_unkillable_raises (w : World) (cell : string) (st : State)
    (proc : Tapped_Executor) :
  od_get cell (g_workflow_queue st) = Some (Executor proc) →
  running w proc = true →
  pid_exists_after_kill w (pid proc) = true →
  cancel_workflow w cell st
  = (Raised (RuntimeError "Failed to kill workflow"),
     log [aborted cell; kill_all_subprocesses (pid proc) true;
          terminate (pid proc)] st)
  ∧ od_get cell (g_workflow_queue (cancel_workflow w cell st).2)
    = Some (Executor proc).
Proof.
  intros Hget Hlive Hstill.
  rewrite cancel_workflow_cases, Hget, Hlive, Hstill. done.
Qed.

(** ** [run_sos_workflow], phase by phase *)

Lemma run_sos_workflow_phases w code raw_args k st :
  run_sos_workflow w code raw_args k st =
    match (if od_mem k (g_workflow_queue st)
           then cancel_workflow w k st else (Returned tt, st)) with
    | (Raised e, s1) => (Raised e, s1)
    | (Returned _, s1) =>
        let s2 := set_queue (List.filter (valid w))
                    (set_queue (od_set k (Tuple code raw_args (env_config s1))) s1) in
        match g_workflow_queue s2 with
        | [] => (Raised StopIteration, s2)
        | (cell, Executor _) :: _ => report k s2
        | (cell, Tuple c a l) :: _ =>
            let s3 := set_heap (alter (set_slave_id cell) (env_config s2)) s2 in
            match start_outcome w with
            | inl e => (Raised e, s3)
            | inr p =>
                let executor := mkExecutor c a l p in
                report k (set_queue (od_set cell (Executor executor))
                            (log [start executor (heap s3 !! l)] s3))
            end
        end
    end.
Proof.
  unfold run_sos_workflow, report, pending, emit, bind, gets, modify, ret, raise.
  destruct (od_mem k (g_workflow_queue st));
    [destruct (cancel_workflow w k st) as [[[]|e] s1]; [|done]|];
    cbv beta iota zeta;
    (destruct (g_workflow_queue (set_queue (List.filter (valid w)) _))
       as [|[cell [c a l|proc]] q'] eqn:Hq; [done| |]);
    cbv beta iota; rewrite ?Hq; try (by destruct (index _ _));
    (destruct (start_outcome w); [done|]);
    cbv beta iota; by destruct (index _ _).
Qed.

(** ** The single-flight invariant *)

Section SingleFlight.
Implicit Types (q : list (string * QueueEntry)) (P : string * QueueEntry → Prop).

Lemma Forall_od_pop P k q : Forall P q → Forall P (od_pop k q).
Proof.
  induction 1 as [|[k' v'] q Hx Hq IH]; simpl; [done|].
  case_decide; [done | by constructor].
Qed.

Lemma Forall_od_set P k v q : P (k, v) → Forall P q → Forall P (od_set k v q).
Proof.
  intros Hv. induction 1 as [|[k' v'] q Hx Hq IH]; simpl.
  - by constructor.
  - case_decide; by constructor.
Qed.

Lemma Forall_list_filter P f q : Forall P q → Forall P (List.filter f q).
Proof.
  induction 1 as [|x q Hx Hq IH]; simpl; [done|].
  destruct (f x); [by constructor | done].
Qed.

Lemma single_flight_od_pop k q : single_flight q → single_flight (od_pop k q).
Proof.
  unfold single_flight. destruct q as [|[k' v'] q]; simpl; [done|].
  case_decide; simpl; [apply Forall_tail | apply Forall_od_pop].
Qed.

Lemma single_flight_od_set_tuple k c a l q :
  single_flight q → single_flight (od_set k (Tuple c a l) q).
Proof.
  unfold single_flight. destruct q as [|[k' v'] q]; simpl; [done|].
  case_decide; simpl; [done | by apply Forall_od_set].
Qed.

Lemma single_flight_filter f q : single_flight q → single_flight (List.filter f q).
Proof.
  unfold single_flight. destruct q as [|x q]; simpl; [done|].
  intros Hq. destruct (f x); simpl.
  - by apply Forall_list_filter.
  - by apply Forall_tail, Forall_list_filter.
Qed.

Lemma single_flight_od_set_head k v v' q :
  single_flight ((k, v) :: q) → single_flight (od_set k v' ((k, v) :: q)).
Proof. unfold single_flight; simpl. by rewrite decide_True. Qed.

Lemma cancel_workflow_single_flight w k st :
  single_flight (g_workflow_queue st) →
  single_flight (g_workflow_queue (cancel_workflow w k st).2).
Proof.
  intros Hq. rewrite cancel_workflow_cases.
  destruct (od_get k (g_workflow_queue st)) as [[c a l|proc]|]; simpl;
    [by apply single_flight_od_pop| |done].
  destruct (running w proc); simpl; [|by apply single_flight_od_pop].
  destruct (pid_exists_after_kill w (pid proc)); simpl;
    [done | by apply single_flight_od_pop].
Qed.

Lemma report_queue k st : g_workflow_queue (report k st).2 = g_workflow_queue st.
Proof. unfold report. by destruct (index _ _). Qed.

Lemma run_sos_workflow_single_flight w code raw_args k st :
  single_flight (g_workflow_queue st) →
  single_flight (g_workflow_queue (run_sos_workflow w code raw_args k st).2).
Proof.
  intros Hq. rewrite run_sos_workflow_phases.
  assert (∃ r s1, (if od_mem k (g_workflow_queue st)
                   then cancel_workflow w k st else (Returned tt, st)) = (r, s1)
                  ∧ single_flight (g_workflow_queue s1)) as (r & s1 & -> & Hs1).
  { destruct (od_mem k (g_workflow_queue st)); [|by eauto].
    destruct (cancel_workflow w k st) as [r s1] eqn:Hc. exists r, s1.
    split; [done|]. replace s1 with (cancel_workflow w k st).2 by by rewrite Hc.
    by apply cancel_workflow_single_flight. }
  destruct r as [[]|e]; [|done]. cbv zeta.
  set (s2 := set_queue (List.filter (valid w)) _).
  assert (single_flight (g_workflow_queue s2)) as Hs2.
  { apply single_flight_filter, single_flight_od_set_tuple, Hs1. }
  clearbody s2.
  destruct (g_workflow_queue s2) as [|[cell [c a l|proc]] q'] eqn:Hq2.
  - simpl. by rewrite Hq2.
  - destruct (start_outcome w) as [e|p]; simpl; [by rewrite Hq2|].
    rewrite report_queue; simpl. rewrite Hq2.
    by apply single_flight_od_set_head.
  - by rewrite report_queue, Hq2.
Qed.

Lemma reachable_single_flight st :
  reachable st → single_flight (g_workflow_queue st).
Proof.
  induction 1 as [h env|st w [code raw_args cell|cell] Hst IH]; simpl.
  - by constructor.
  - by apply run_sos_workflow_single_flight.
  - by apply cancel_workflow_single_flight.
Qed.

Lemma single_flight_executors q : single_flight q → (length (executors q) ≤ 1)%nat.
Proof.
  unfold single_flight, executors. destruct q as [|x q]; simpl; [lia|].
  intros Hq. assert (List.filter (λ item, negb (is_tuple item.2)) q = []) as Hnil.
  { induction Hq as [|y q Hy Hq IH]; simpl; [done|]. by rewrite Hy. }
  rewrite Hnil. destruct (negb _); simpl; lia.
Qed.

Lemma single_flight_head q i k proc :
  single_flight q → q !! i = Some (k, Executor proc) → i = 0.
Proof.
  unfold single_flight. destruct q as [|x q]; [done|]. simpl.
  destruct i as [|i]; [done|]. simpl. intros Hq Hi.
  by apply (Forall_lookup_1 _ _ _ _ Hq) in Hi.
Qed.
End SingleFlight.

(** C1.  At every state a caller can observe, after any sequence of
    [run_sos_workflow] and [cancel_workflow] calls (returned or raised,
    whatever the processes did meanwhile), at most one entry of the queue
    is a worker handle, every other entry is a pending tuple, and the
    handle, when there is one, is the first entry of the queue. *)
Theorem single_flight_invariant (st : State) :
  reachable st →
  (length (executors (g_workflow_queue st)) ≤ 1)%nat
  ∧ (∀ i k proc, g_workflow_queue st !! i = Some (k, Executor proc) → i = 0)
  ∧ (∀ i k y, g_workflow_queue st !! S i = Some (k, y) → is_tuple y = true).
Proof.
  intros Hq%reachable_single_flight. split_and!.
  - by apply single_flight_executors.
  - intros i k proc. by apply single_flight_head.
  - intros i k y Hi. unfold single_flight in Hq.
    destruct (g_workflow_queue st) as [|x q]; [done|]. simpl in *.
    by apply (Forall_lookup_1 _ _ _ _ Hq) in Hi.
Qed.

(** ** Scenarios from an empty queue *)

Ltac decide_keys :=
  repeat (unfold report, set_queue, set_heap, log, valid, running, od_mem, keys;
          simpl;
          try first [ rewrite decide_True by done
                    | rewrite decide_False by done
                    | rewrite bool_decide_eq_true_2 by eauto
                    | rewrite bool_decide_eq_false_2 by (by intros [? ?]) ]).

(** The first submission into an empty queue is started at once. *)
Lemma first_submission w code raw_args A h env p :
  start_outcome w = inr p →
  run_sos_workflow w code raw_args A (imported h env)
  = (Returned tt,
     {| g_workflow_queue := [(A, Executor (mkExecutor code raw_args env p))];
        heap := alter (set_slave_id A) env h;
        env_config := env;
        events := [start (mkExecutor code raw_args env p)
                     (alter (set_slave_id A) env h !! env);
                   pending A 0] |}).
Proof.
  intros Hstart. rewrite run_sos_workflow_phases. unfold imported.
  decide_keys. rewrite Hstart. decide_keys. done.
Qed.

Lemma report_returned k st r st' :
  report k st = (r, st') → r = Returned tt →
  ∃ i, index k (keys (g_workflow_queue st')) = Some i
       ∧ events st' = (events st ++ [pending k i])%list.
Proof.
  unfold report. destruct (index k (keys (g_workflow_queue st))) as [i|] eqn:Hi;
    intros [= <- <-]; [|done]. intros _. by exists i.
Qed.

Lemma elem_of_keys_filter_tuple w k code a l q :
  (k, Tuple code a l) ∈ q → k ∈ keys (List.filter (valid w) q).
Proof.
  unfold keys. induction q as [|x q IH]; simpl.
  - intros H. by apply elem_of_nil in H.
  - intros [<-|H]%elem_of_cons.
    + unfold valid at 1. simpl. apply list_elem_of_here.
    + destruct (valid w x); simpl; [apply list_elem_of_further|]; by apply IH.
Qed.

Lemma elem_of_od_set k (v : QueueEntry) q : (k, v) ∈ od_set k v q.
Proof.
  induction q as [|[k' v'] q IH]; simpl.
  - apply list_elem_of_here.
  - case_decide; [apply list_elem_of_here | by apply list_elem_of_further].
Qed.

(** [run_sos_workflow] raises only what [cancel_workflow] or [start]
    raised: the queue is never empty at line 254 and the cell is always
    found at line 266. *)
Lemma run_sos_workflow_returns w code raw_args k st p :
  (od_mem k (g_workflow_queue st) = true →
   (cancel_workflow w k st).1 = Returned tt) →
  start_outcome w = inr p →
  (run_sos_workflow w code raw_args k st).1 = Returned tt.
Proof.
  intros Hcancel Hstart. rewrite run_sos_workflow_phases.
  assert (∃ s1, (if od_mem k (g_workflow_queue st)
                 then cancel_workflow w k st else (Returned tt, st))
                = (Returned tt, s1)) as [s1 ->].
  { destruct (od_mem k (g_workflow_queue st)); [|by eauto].
    specialize (Hcancel eq_refl).
    destruct (cancel_workflow w k st) as [r s1]. simpl in Hcancel. subst. eauto. }
  cbv zeta. set (s2 := set_queue (List.filter (valid w)) _).
  assert (k ∈ keys (g_workflow_queue s2)) as Hin.
  { simpl. eapply elem_of_keys_filter_tuple, elem_of_od_set. }
  clearbody s2.
  destruct (g_workflow_queue s2) as [|[cell [c a l|proc]] q'] eqn:Hq2.
  - by apply elem_of_nil in Hin.
  - rewrite Hstart. unfold report. simpl g_workflow_queue. rewrite Hq2.
    assert (keys (od_set cell (Executor (mkExecutor c a l p))
                    ((cell, Tuple c a l) :: q'))
            = keys ((cell, Tuple c a l) :: q')) as ->
      by (simpl; by rewrite decide_True).
    by destruct (index_Some k _ Hin) as [i ->].
  - unfold report. rewrite Hq2.
    by destruct (index_Some k _ Hin) as [i ->].
Qed.

(** Whenever [run_sos_workflow] returns, the last thing it did was to send
    the pending message with the index of the cell in the resulting queue. *)
Lemma run_sos_workflow_reports w code raw_args k st :
  (run_sos_workflow w code raw_args k st).1 = Returned tt →
  ∃ i evs,
    index k (keys (g_workflow_queue (run_sos_workflow w code raw_args k st).2))
    = Some i
    ∧ events (run_sos_workflow w code raw_args k st).2
      = (evs ++ [pending k i])%list.
Proof.
  rewrite run_sos_workflow_phases.
  destruct (if od_mem k (g_workflow_queue st) then _ else _) as [[[]|e] s1];
    [|done]. cbv zeta.
  destruct (g_workflow_queue (set_queue (List.filter (valid w)) _))
    as [|[cell [c a l|proc]] q']; [done| |].
  - destruct (start_outcome w) as [e|p]; [done|].
    destruct (report _ _) as [r st'] eqn:Hr. simpl. intros ->.
    destruct (report_returned _ _ _ _ Hr eq_refl) as (i & Hi & Hev). eauto.
  - destruct (report _ _) as [r st'] eqn:Hr. simpl. intros ->.
    destruct (report_returned _ _ _ _ Hr eq_refl) as (i & Hi & Hev). eauto.
Qed.

(** C8.  Submitting three new cells X, Y, Z into an empty queue, the worker
    of X staying alive, sends the pending messages "#1 in queue",
    "#2 in queue" and "#3 in queue" for X, Y and Z; and in general a
    submission that returns has reported, as its last message, one plus the
    index of its cell in the resulting queue. *)
Theorem position_reporting (x y z codeX argsX codeY argsY codeZ argsZ : string)
    (w1 w2 w3 : World) (h : gmap loc Config) (env : loc) (p : Z) :
  x ≠ y → x ≠ z → y ≠ z →
  start_outcome w1 = inr p →
  is_alive w2 p = true → pid_exists w2 p = true →
  is_alive w3 p = true → pid_exists w3 p = true →
  let st := perform_all [(w1, submit codeX argsX x);
                         (w2, submit codeY argsY y);
                         (w3, submit codeZ argsZ z)] (imported h env) in
  keys (g_workflow_queue st) = [x; y; z]
  ∧ events st
    = [start (mkExecutor codeX argsX env p) (alter (set_slave_id x) env h !! env);
       send_frontend_msg "workflow_status"
         (mkStatusMsg x "pending" (Some "#1 in queue") None);
       send_frontend_msg "workflow_status"
         (mkStatusMsg y "pending" (Some "#2 in queue") None);
       send_frontend_msg "workflow_status"
         (mkStatusMsg z "pending" (Some "#3 in queue") None)]
  ∧ ∀ w code raw_args k st0,
      (run_sos_workflow w code raw_args k st0).1 = Returned tt →
      ∃ i evs,
        keys (g_workflow_queue (run_sos_workflow w code raw_args k st0).2) !! i
        = Some k
        ∧ events (run_sos_workflow w code raw_args k st0).2
          = (evs ++ [send_frontend_msg "workflow_status"
                       (mkStatusMsg k "pending"
                          (Some ("#" +:+ pretty (i + 1)%nat +:+ " in queue"))
                          None)])%list.
Proof.
  intros HXY HXZ HYZ Hstart Ha2 He2 Ha3 He3. unfold perform_all, perform.
  rewrite (first_submission _ _ _ _ _ _ p) by done. cbv zeta. split_and!.
  - rewrite !run_sos_workflow_phases. decide_keys.
    rewrite Ha2, He2. decide_keys. rewrite Ha3, He3. by decide_keys.
  - rewrite !run_sos_workflow_phases. decide_keys.
    rewrite Ha2, He2. decide_keys. rewrite Ha3, He3. by decide_keys.
  - intros w code raw_args k st0 Hret.
    destruct (run_sos_workflow_reports _ _ _ _ _ Hret) as (i & evs & Hi & Hev).
    exists i, evs. split; [by apply index_lookup | done].
Qed.

(** C3, as stated, fails: after submitting A, B and A again while the
    first A is running, A is behind B, not in its first place. *)
Lemma resubmit_goes_to_tail :
  let st2 := perform_all [(world true false (inr 100%Z), submit "print(1)" "" "A");
                          (world true false (inr 101%Z), submit "print(2)" "" "B")]
               sample_import in
  let st3 := perform_all [(world true false (inr 102%Z), submit "print(3)" "" "A")]
               st2 in
  index "A" (keys (g_workflow_queue st2)) = Some 0
  ∧ keys (g_workflow_queue st3) = ["B"; "A"]
  ∧ index "A" (keys (g_workflow_queue st3)) = Some 1
  ∧ index "A" (keys (g_workflow_queue st3)) ≠ index "A" (keys (g_workflow_queue st2)).
Proof. vm_compute. split_and!; congruence. Qed.

(** C3, amended.  Submitting A, B and A again while the worker of the
    first A is alive, and that worker dying when killed: the first A is
    cancelled (aborted message, [kill_all_subprocesses], [terminate]), its
    entry is popped and the new submission of A is appended behind B, which
    becomes the head and is started; the position reported for A is 2. *)
Theorem resubmit_cancels_and_requeues
    (A B codeA argsA codeB argsB codeA' argsA' : string)
    (w1 w2 w3 : World) (h : gmap loc Config) (env : loc) (p1 p3 : Z) :
  A ≠ B →
  start_outcome w1 = inr p1 →
  is_alive w2 p1 = true → pid_exists w2 p1 = true →
  is_alive w3 p1 = true → pid_exists w3 p1 = true →
  pid_exists_after_kill w3 p1 = false →
  start_outcome w3 = inr p3 →
  let st2 := perform_all [(w1, submit codeA argsA A); (w2, submit codeB argsB B)]
               (imported h env) in
  g_workflow_queue st2
  = [(A, Executor (mkExecutor codeA argsA env p1)); (B, Tuple codeB argsB env)]
  ∧ (run_sos_workflow w3 codeA' argsA' A st2).1 = Returned tt
  ∧ g_workflow_queue (run_sos_workflow w3 codeA' argsA' A st2).2
    = [(B, Executor (mkExecutor codeB argsB env p3)); (A, Tuple codeA' argsA' env)]
  ∧ events (run_sos_workflow w3 codeA' argsA' A st2).2
    = (events st2 ++
       [aborted A; kill_all_subprocesses p1 true; terminate p1;
        start (mkExecutor codeB argsB env p3)
          (heap (run_sos_workflow w3 codeA' argsA' A st2).2 !! env);
        send_frontend_msg "workflow_status"
          (mkStatusMsg A "pending" (Some "#2 in queue") None)])%list.
Proof.
  intros HAB Hs1 Ha2 He2 Ha3 He3 Hk3 Hs3. unfold perform_all, perform.
  rewrite (first_submission _ _ _ _ _ _ p1) by done. cbv zeta.
  rewrite !run_sos_workflow_phases, !cancel_workflow_cases.
  decide_keys. rewrite Ha2, He2. decide_keys.
  rewrite Ha3, He3. decide_keys. rewrite Hk3. decide_keys.
  rewrite Hs3. decide_keys. done.
Qed.

(** ** A worker that fails to start *)

Lemma od_get_app_fresh {V} k (v : V) d :
  k ∉ keys d → od_get k (d ++ [(k, v)]) = Some v.
Proof.
  unfold keys. induction d as [|[k' v'] d IH]; simpl.
  - by rewrite decide_True.
  - rewrite not_elem_of_cons. intros [Hne Hd]. by rewrite decide_False, IH.
Qed.

Lemma keys_list_filter {V} k (f : string * V → bool) d :
  k ∉ keys d → k ∉ keys (List.filter f d).
Proof.
  unfold keys. induction d as [|[k' v'] d IH]; simpl; [done|].
  rewrite not_elem_of_cons. intros [Hne Hd].
  destruct (f (k', v')); simpl; [|by apply IH].
  rewrite not_elem_of_cons. split; [done | by apply IH].
Qed.

Lemma executors_app q q' : executors (q ++ q') = (executors q ++ executors q')%list.
Proof. apply List.filter_app. Qed.

(** C6, as stated, fails: when [start] raises, no failed status is sent
    and the entry stays in the queue; the exception reaches the caller. *)
Lemma failed_start_is_not_reported :
  let oserror := mkException "OSError" "[Errno 12] Cannot allocate memory" in
  let r := run_sos_workflow (world true false (inl oserror)) "print(1)" "" "A"
             sample_import in
  r.1 = Raised oserror
  ∧ events r.2 = []
  ∧ od_get "A" (g_workflow_queue r.2) = Some (Tuple "print(1)" "" 1%positive)
  ∧ ¬ (∃ t m, send_frontend_msg t m ∈ events r.2 ∧ status m = "failed").
Proof.
  vm_compute. split_and!; try done.
  intros (t & m & Hin & _). by apply elem_of_nil in Hin.
Qed.

(** ** The worker wrapper *)

Lemma informed_app evs evs' : informed (evs ++ evs') = (informed evs ++ informed evs')%list.
Proof. apply omap_app. Qed.

Lemma informed_chunks chunks : informed (send_multipart stdout_socket <$> chunks) = [].
Proof. induction chunks as [|c chunks IH]; simpl; done. Qed.

Lemma informed_relayed o code args wk socks : informed (relayed o code args wk socks) = [].
Proof.
  unfold relayed. destruct (open_write _ _ _); [done|].
  simpl. apply informed_chunks.
Qed.

Lemma informed_terminal cell res :
  informed (terminal cell res)
  = match res with
    | None => [completed cell]
    | Some e => if is_Exception e then [failed cell e] else []
    end.
Proof. destruct res as [e|]; simpl; [|done]. by destruct (is_Exception e). Qed.

Ltac worker_step :=
  cbv beta iota zeta;
  cbn [self_config_of set_env_config set_self_config worker_env_config
       worker_self_config done_events default update slave_id sockets options
       from_option id set_slave_id fst snd].

Ltac run_worker :=
  unfold Tapped_Executor_run, try_finally, try_except, getitem_sockets,
    getitem_slave_id, check, do, do_all, bind, modify, gets, ret, raise;
  worker_step.

(** What [run] does once the sockets are set up. *)
Lemma Tapped_Executor_run_set_up o code args wk socks :
  sockets (self_config_of wk) = Some socks →
  set_up o socks →
  (Tapped_Executor_run o code args wk).1
  = match met o code args wk socks with
    | Some e => if is_Exception e then Returned tt else Raised e
    | None => Returned tt
    end
  ∧ done_events (Tapped_Executor_run o code args wk).2
    = (done_events wk
       ++ [connect stdout_socket (tcp (tapping_logging socks));
           connect informer_socket (tcp (tapping_listener socks))]
       ++ relayed o code args wk socks
       ++ terminal (answers_for wk) (met o code args wk socks)
       ++ closing)%list.
Proof.
  intros Hsocks (H1 & H2 & H3 & H4 & H5).
  unfold met, relayed, command_of, answers_for, terminal.
  destruct wk as [[[se|] so_e op_e] [[[sc|] so_c op_c]|] evs];
    worker_step;
    cbn [self_config_of worker_self_config worker_env_config default sockets
         slave_id done_events from_option id] in Hsocks; subst;
    run_worker; rewrite H1; worker_step; rewrite H2; worker_step;
    rewrite H3; worker_step; rewrite H4; worker_step; rewrite H5; worker_step;
    (destruct (open_write o (script_file o) code) as [e|]; worker_step;
     [destruct (is_Exception e); worker_step;
      (split; [reflexivity|]); rewrite <- ?(assoc_L (++)); reflexivity|]);
    match goal with
    | |- context [pexpect_run o ?cmd] =>
        destruct (pexpect_run o cmd) as [chunks [e|rc]]
    end; worker_step;
    try (destruct (is_Exception e); worker_step);
    (split; [reflexivity|]); rewrite <- ?(assoc_L (++)); reflexivity.
Qed.

Lemma set_up_dec o socks : set_up o socks ∨ ¬ set_up o socks.
Proof.
  unfold set_up.
  destruct (zmq_Context o); [right; by intros (? & _)|].
  destruct (zmq_socket o stdout_socket); [right; by intros (_ & ? & _)|].
  destruct (zmq_connect o stdout_socket _); [right; by intros (_ & _ & ? & _)|].
  destruct (zmq_socket o informer_socket); [right; by intros (_ & _ & _ & ? & _)|].
  destruct (zmq_connect o informer_socket _); [right; by intros (_ & _ & _ & _ & ?)|].
  by left.
Qed.

(** What [run] does when the sockets cannot be set up: it raises before the
    [try], having connected the stdout socket at most. *)
Lemma Tapped_Executor_run_not_set_up o code args wk :
  (∀ socks, sockets (self_config_of wk) = Some socks → ¬ set_up o socks) →
  ∃ e, (Tapped_Executor_run o code args wk).1 = Raised e
       ∧ (done_events (Tapped_Executor_run o code args wk).2 = done_events wk
          ∨ ∃ socks,
              sockets (self_config_of wk) = Some socks
              ∧ done_events (Tapped_Executor_run o code args wk).2
                = (done_events wk
                   ++ [connect stdout_socket (tcp (tapping_logging socks))])%list).
Proof.
  intros Hno.
  assert (∀ socks, sockets (self_config_of wk) = Some socks →
          zmq_Context o = None → zmq_socket o stdout_socket = None →
          zmq_connect o stdout_socket (tcp (tapping_logging socks)) = None →
          zmq_socket o informer_socket = None →
          zmq_connect o informer_socket (tcp (tapping_listener socks)) = None →
          False) as Hno'.
  { intros socks Hsocks H1 H2 H3 H4 H5. by apply (Hno socks Hsocks). }
  clear Hno.
  destruct wk as [[se so_e op_e] [[sc so_c op_c]|] evs];
    cbn [self_config_of worker_self_config worker_env_config default sockets
         slave_id done_events from_option id] in Hno'; run_worker.
  all: destruct (zmq_Context o) as [e|] eqn:H1; worker_step; [by eauto|].
  all: destruct (zmq_socket o stdout_socket) as [e|] eqn:H2; worker_step;
    [by eauto|].
  1: destruct so_c as [socks|]; worker_step; [|by eauto].
  2: destruct so_e as [socks|]; worker_step; [|by eauto].
  all: destruct (zmq_connect o stdout_socket _) as [e|] eqn:H3; worker_step;
    [by eauto|].
  all: destruct (zmq_socket o informer_socket) as [e|] eqn:H4; worker_step;
    [by eauto 10|].
  all: destruct (zmq_connect o informer_socket _) as [e|] eqn:H5; worker_step;
    [by eauto 10|].
  all: by destruct (Hno' socks).
Qed.

(** Whatever happens, a worker sends one status at most, and for its cell. *)
Lemma Tapped_Executor_run_informed o code args wk :
  ∃ evs,
    done_events (Tapped_Executor_run o code args wk).2 = (done_events wk ++ evs)%list
    ∧ (informed evs = []
       ∨ informed evs = [completed (answers_for wk)]
       ∨ ∃ e, informed evs = [failed (answers_for wk) e]).
Proof.
  destruct (sockets (self_config_of wk)) as [socks|] eqn:Hsocks.
  - destruct (set_up_dec o socks) as [Hup|Hdown].
    + destruct (Tapped_Executor_run_set_up o code args wk socks Hsocks Hup)
        as [_ ->].
      eexists. split; [done|].
      rewrite !informed_app, informed_relayed, informed_terminal. simpl.
      destruct (met o code args wk socks) as [e|]; [|by eauto].
      destruct (is_Exception e); by eauto.
    + destruct (Tapped_Executor_run_not_set_up o code args wk)
        as (e & _ & [->|(socks' & _ & ->)]).
      * intros socks' Hsocks'. congruence.
      * exists []. split; [by rewrite app_nil_r | by left].
      * eexists. split; [done | by left].
  - destruct (Tapped_Executor_run_not_set_up o code args wk)
      as (e & _ & [->|(socks' & Hsocks' & _)]);
      [intros ? ?; congruence| |congruence].
    exists []. split; [by rewrite app_nil_r | by left].
Qed.

Lemma killed_after_app n run wk evs :
  done_events (run wk).2 = (done_events wk ++ evs)%list →
  killed_after n run wk = (done_events wk ++ take n evs)%list.
Proof. intros Hev. unfold killed_after. rewrite Hev. apply take_app_add. Qed.

Lemma informed_take n evs :
  ∃ rest, informed evs = (informed (take n evs) ++ rest)%list.
Proof.
  exists (informed (drop n evs)). by rewrite <- informed_app, take_drop.
Qed.

(** A worker killed at any point has sent one status at most, and for its
    cell. *)
Lemma killed_after_informed n o code args wk :
  ∃ sent,
    informed (killed_after n (Tapped_Executor_run o code args) wk)
    = (informed (done_events wk) ++ sent)%list
    ∧ (sent = []
       ∨ sent = [completed (answers_for wk)]
       ∨ ∃ e, sent = [failed (answers_for wk) e]).
Proof.
  destruct (Tapped_Executor_run_informed o code args wk) as (evs & Hev & Hinf).
  rewrite (killed_after_app n _ wk evs Hev), informed_app.
  exists (informed (take n evs)). split; [done|].
  destruct (informed_take n evs) as [rest Hrest].
  destruct (informed (take n evs)) as [|m [|m' sent]]; [by left| |].
  - destruct Hinf as [Hinf|[Hinf|[e Hinf]]]; rewrite Hinf in Hrest;
      simplify_eq/=; eauto.
  - destruct Hinf as [Hinf|[Hinf|[e Hinf]]]; rewrite Hinf in Hrest;
      simplify_eq/=.
Qed.




(** C4.  The return code of the engine is bound at line 203 and not looked
    at: whatever it is, 1 for one, the worker sends completed and never
    failed. *)
Theorem nonzero_exit_is_completed (ret_code : Z) :
  let r := Tapped_Executor_run (engine (inr ret_code)) "print(1)" "" fresh_worker in
  r.1 = Returned tt
  ∧ informed (done_events r.2) = [completed "A"]
  ∧ (Tapped_Executor_run (engine (inr 1%Z)) "print(1)" "" fresh_worker).2 = r.2
  ∧ ¬ (∃ e, failed "A" e ∈ informed (done_events r.2)).
Proof.
  vm_compute. split_and!; [done..|].
  intros (e & Hin). apply list_elem_of_singleton in Hin. discriminate.
Qed.

(** ** Payloads of queued submissions *)

Section Payloads.
Implicit Types (q : list (string * QueueEntry)) (k : string).

Lemma od_get_od_pop_ne k k' q : k' ≠ k → od_get k (od_pop k' q) = od_get k q.
Proof.
  intros Hne. induction q as [|[k0 v0] q IH]; simpl; [done|].
  destruct (decide (k0 = k')) as [->|Hk0].
  - by rewrite decide_False.
  - simpl. by rewrite IH.
Qed.

Lemma od_get_od_set_ne k k' v q : k' ≠ k → od_get k (od_set k' v q) = od_get k q.
Proof.
  intros Hne. induction q as [|[k0 v0] q IH]; simpl.
  - by rewrite decide_False.
  - destruct (decide (k0 = k')) as [->|Hk0]; simpl.
    + by rewrite !decide_False.
    + by rewrite IH.
Qed.


Lemma od_get_filter_tuple w k code a l q :
  od_get k q = Some (Tuple code a l) →
  od_get k (List.filter (valid w) q) = Some (Tuple code a l).
Proof.
  induction q as [|[k0 v0] q IH]; simpl; [done|].
  destruct (decide (k0 = k)) as [->|Hne].
  - intros [= ->]. unfold valid at 1. simpl. by rewrite decide_True.
  - intros Hget. destruct (valid w (k0, v0)); simpl; [|by apply IH].
    rewrite decide_False by done. by apply IH.
Qed.

Lemma cancel_workflow_frame w k k' st :
  k' ≠ k →
  od_get k (g_workflow_queue (cancel_workflow w k' st).2)
  = od_get k (g_workflow_queue st)
  ∧ heap (cancel_workflow w k' st).2 = heap st
  ∧ env_config (cancel_workflow w k' st).2 = env_config st.
Proof.
  intros Hne. rewrite cancel_workflow_cases.
  destruct (od_get k' (g_workflow_queue st)) as [[c a l|proc]|]; simpl;
    [by rewrite od_get_od_pop_ne| |done].
  destruct (running w proc); simpl; [|by rewrite od_get_od_pop_ne].
  destruct (pid_exists_after_kill w (pid proc)); simpl;
    [done | by rewrite od_get_od_pop_ne].
Qed.

Lemma report_frame k st :
  g_workflow_queue (report k st).2 = g_workflow_queue st
  ∧ heap (report k st).2 = heap st
  ∧ env_config (report k st).2 = env_config st.
Proof. unfold report. by destruct (index _ _). Qed.
End Payloads.



(** ** Workers are forked with their cell id in the config *)

Section Forked.
Lemma cancel_workflow_forked w k st :
  aliased st → Forall forked_with_slave_id (events st) →
  aliased (cancel_workflow w k st).2
  ∧ Forall forked_with_slave_id (events (cancel_workflow w k st).2).
Proof.
  unfold aliased. intros Hal Hev. rewrite cancel_workflow_cases.
  destruct (od_get k (g_workflow_queue st)) as [[c a l|proc]|]; simpl.
  - split; [by apply Forall_od_pop|]. apply Forall_app; split; [done|].
    by repeat constructor.
  - destruct (running w proc); simpl;
      [destruct (pid_exists_after_kill w (pid proc)); simpl|];
      (split; [by try apply Forall_od_pop|]);
      (apply Forall_app; split; [done|]); by repeat constructor.
  - split; [done|]. apply Forall_app; split; [done|]. by repeat constructor.
Qed.

Lemma report_forked k st :
  aliased st → Forall forked_with_slave_id (events st) →
  aliased (report k st).2 ∧ Forall forked_with_slave_id (events (report k st).2).
Proof.
  intros Hal Hev. unfold report. destruct (index _ _); simpl; [|done].
  split; [done|]. apply Forall_app; split; [done|]. by repeat constructor.
Qed.

Lemma run_sos_workflow_forked w code raw_args k st :
  aliased st → Forall forked_with_slave_id (events st) →
  aliased (run_sos_workflow w code raw_args k st).2
  ∧ Forall forked_with_slave_id (events (run_sos_workflow w code raw_args k st).2).
Proof.
  intros Hal Hev. rewrite run_sos_workflow_phases.
  assert (∃ r s1, (if od_mem k (g_workflow_queue st)
                   then cancel_workflow w k st else (Returned tt, st)) = (r, s1)
                  ∧ aliased s1 ∧ Forall forked_with_slave_id (events s1))
    as (r & s1 & -> & Hal1 & Hev1).
  { destruct (od_mem k (g_workflow_queue st)); [|by eauto].
    destruct (cancel_workflow_forked w k st Hal Hev) as [? ?].
    destruct (cancel_workflow w k st) as [r s1]. by exists r, s1. }
  destruct r as [[]|e]; [|done]. cbv zeta.
  set (s2 := set_queue (List.filter (valid w)) _).
  assert (aliased s2) as Hal2.
  { unfold aliased in *. simpl. by apply Forall_list_filter, Forall_od_set. }
  assert (events s2 = events s1) as Hev2 by done.
  clearbody s2. rewrite <- Hev2 in Hev1. clear Hev2.
  destruct (g_workflow_queue s2) as [|[cell [c a l|proc]] q'] eqn:Hq2;
    [done| |by apply report_forked].
  assert (l = env_config s2) as ->.
  { unfold aliased in Hal2. rewrite Hq2 in Hal2. by inversion Hal2. }
  destruct (start_outcome w) as [e|p]; [done|].
  apply report_forked.
  - unfold aliased in *. simpl. rewrite Hq2. simpl. rewrite decide_True by done.
    rewrite Hq2 in Hal2. inversion Hal2; subst. by constructor.
  - simpl. apply Forall_app; split; [done|]. constructor; [|done]. simpl.
    rewrite lookup_alter_eq. destruct (heap s2 !! env_config s2); simpl; eauto.
Qed.

(** Whatever the callers did, every worker forked so far found a
    ['slave_id'] in its config. *)
Lemma reachable_forked st :
  reachable st → aliased st ∧ Forall forked_with_slave_id (events st).
Proof.
  induction 1 as [h env|st w [code raw_args cell|cell] Hst [Hal Hev]]; simpl.
  - by split; constructor.
  - by apply run_sos_workflow_forked.
  - by apply cancel_workflow_forked.
Qed.
End Forked.

(** ** The theorems at sample inputs *)

Lemma reachable_perform_all calls st : reachable st → reachable (perform_all calls st).
Proof.
  revert st. induction calls as [|[w c] calls IH]; intros st Hst; simpl; [done|].
  by apply IH, reach_call.
Qed.

Lemma sample_import_reachable : reachable sample_import.
Proof. apply reach_import. Qed.

Lemma single_flight_invariant_witness :
  let st := perform_all
              [(world true false (inr 100%Z), submit "print(1)" "" "X");
               (world true false (inr 101%Z), submit "print(2)" "" "Y");
               (world true true (inr 102%Z), cancel "X");
               (world false false (inr 103%Z), submit "print(3)" "" "Z")]
              sample_import in
  reachable st
  ∧ (length (executors (g_workflow_queue st)) ≤ 1)%nat
  ∧ (∀ i k proc, g_workflow_queue st !! i = Some (k, Executor proc) → i = 0)
  ∧ (∀ i k y, g_workflow_queue st !! S i = Some (k, y) → is_tuple y = true).
Proof.
  intros st.
  assert (reachable st) as Hst
    by apply reachable_perform_all, sample_import_reachable.
  split; [exact Hst | exact (single_flight_invariant st Hst)].
Defined.

Lemma resubmit_cancels_and_requeues_witness :
  let st2 := perform_all
               [(world true false (inr 100%Z), submit "print(1)" "" "A");
                (world true false (inr 101%Z), submit "print(2)" "" "B")]
               sample_import in
  "A" ≠ "B"
  ∧ g_workflow_queue
      (run_sos_workflow (world true false (inr 102%Z)) "print(3)" "" "A" st2).2
    = [("B", Executor (mkExecutor "print(2)" "" 1%positive 102));
       ("A", Tuple "print(3)" "" 1%positive)].
Proof.
  split; [discriminate|].
  apply (resubmit_cancels_and_requeues "A" "B" "print(1)" "" "print(2)" ""
           "print(3)" "" (world true false (inr 100%Z))
           (world true false (inr 101%Z)) (world true false (inr 102%Z))
           {[ 1%positive := sample_config ]} 1%positive 100 102);
    [discriminate | reflexivity..].
Defined.

Lemma cancel_unkillable_raises_witness :
  let st := perform_all
              [(world true false (inr 100%Z), submit "print(1)" "" "X")]
              sample_import in
  od_get "X" (g_workflow_queue st)
  = Some (Executor (mkExecutor "print(1)" "" 1%positive 100))
  ∧ (cancel_workflow (world true true (inr 101%Z)) "X" st).1
    = Raised (RuntimeError "Failed to kill workflow").
Proof.
  intros st. split; [reflexivity|].
  destruct (cancel_unkillable_raises (world true true (inr 101%Z)) "X" st
              (mkExecutor "print(1)" "" 1%positive 100)) as [Hraise _];
    [reflexivity..|].
  rewrite Hraise. reflexivity.
Defined.

Lemma cancel_absent_is_noop_witness :
  ("A" ∉ keys (g_workflow_queue sample_import))
  ∧ cancel_workflow (world true false (inr 100%Z)) "A" sample_import
    = (Returned tt, log [aborted "A"] sample_import).
Proof.
  split; [apply not_elem_of_nil|].
  apply (cancel_absent_is_noop (world true false (inr 100%Z)) "A" sample_import).
  apply not_elem_of_nil.
Defined.

Lemma position_reporting_witness :
  let st := perform_all
              [(world true false (inr 100%Z), submit "print(1)" "" "X");
               (world true false (inr 101%Z), submit "print(2)" "" "Y");
               (world true false (inr 102%Z), submit "print(3)" "" "Z")]
              sample_import in
  "X" ≠ "Y" ∧ "X" ≠ "Z" ∧ "Y" ≠ "Z"
  ∧ keys (g_workflow_queue st) = ["X"; "Y"; "Z"].
Proof.
  intros st. split_and!; [discriminate..|].
  apply (position_reporting "X" "Y" "Z" "print(1)" "" "print(2)" "" "print(3)" ""
           (world true false (inr 100%Z)) (world true false (inr 101%Z))
           (world true false (inr 102%Z)) {[ 1%positive := sample_config ]}
           1%positive 100); [discriminate..|reflexivity|reflexivity|reflexivity|reflexivity|reflexivity].
Defined.


(** * Further properties *)

(** ** Keys of the queue stay distinct *)

Section Keys.
Context {V : Type}.
Implicit Types (d : list (string * V)) (k : string) (v : V).

Lemma elem_of_keys k d : k ∈ keys d ↔ ∃ v, (k, v) ∈ d.
Proof.
  unfold keys. rewrite list_elem_of_fmap. split.
  - intros ([k' v] & -> & Hin). by exists v.
  - intros [v Hin]. by exists (k, v).
Qed.

Lemma od_pop_absent k d : k ∉ keys d → od_pop k d = d.
Proof.
  unfold keys. induction d as [|[k' v'] d IH]; simpl; [done|].
  rewrite not_elem_of_cons. intros [Hne Hd].
  case_decide; [congruence|]. by rewrite IH.
Qed.

Lemma elem_of_od_pop x k d : x ∈ od_pop k d → x ∈ d.
Proof.
  induction d as [|[k' v'] d IH]; simpl; [done|].
  case_decide; [by apply list_elem_of_further|].
  intros [->|Hin]%elem_of_cons; [apply list_elem_of_here|].
  by apply list_elem_of_further, IH.
Qed.

Lemma keys_od_pop k d :
  NoDup (keys d) → NoDup (keys (od_pop k d)) ∧ k ∉ keys (od_pop k d).
Proof.
  unfold keys. induction d as [|[k' v'] d IH]; simpl.
  - intros _. split; [constructor | apply not_elem_of_nil].
  - rewrite NoDup_cons. intros [Hk' Hd]. case_decide; subst; [done|].
    destruct (IH Hd) as [Hnd Hk]. simpl. split.
    + apply NoDup_cons. split; [|done].
      intros Hin. apply Hk'. apply list_elem_of_fmap in Hin as (x & -> & Hin).
      apply list_elem_of_fmap. exists x. split; [done|].
      by eapply elem_of_od_pop.
    + by apply not_elem_of_cons.
Qed.

Lemma keys_od_set_mem k v d : k ∈ keys d → keys (od_set k v d) = keys d.
Proof.
  unfold keys. induction d as [|[k' v'] d IH]; simpl.
  - intros H. by apply elem_of_nil in H.
  - case_decide; subst; simpl; [done|].
    intros [?|Hin]%elem_of_cons; [congruence|]. f_equal. by apply IH.
Qed.

Lemma keys_od_set_NoDup k v d : NoDup (keys d) → NoDup (keys (od_set k v d)).
Proof.
  intros Hd. destruct (decide (k ∈ keys d)) as [Hin|Hout].
  - by rewrite keys_od_set_mem.
  - rewrite od_set_fresh by done. unfold keys in *. rewrite fmap_app. simpl.
    apply NoDup_app. split_and!; [done| |apply NoDup_singleton].
    intros x Hx ->%list_elem_of_singleton. done.
Qed.

Lemma keys_filter_sublist (f : string * V → bool) d :
  sublist (keys (List.filter f d)) (keys d).
Proof.
  unfold keys. induction d as [|x d IH]; simpl; [done|].
  destruct (f x); simpl; [by apply sublist_skip | by apply sublist_cons].
Qed.

Lemma NoDup_keys_od_get k v d : NoDup (keys d) → (k, v) ∈ d → od_get k d = Some v.
Proof.
  unfold keys. induction d as [|[k' v'] d IH]; simpl.
  - intros _ H. by apply elem_of_nil in H.
  - rewrite NoDup_cons. intros [Hk' Hd] [[= -> ->]|Hin]%elem_of_cons.
    + by rewrite decide_True.
    + rewrite decide_False; [by apply IH|].
      intros ->. apply Hk'. apply list_elem_of_fmap. by exists (k, v).
Qed.

Lemma od_get_elem_of k v d : od_get k d = Some v → (k, v) ∈ d.
Proof.
  induction d as [|[k' v'] d IH]; simpl; [done|].
  case_decide; subst.
  - intros [= ->]. apply list_elem_of_here.
  - intros Hget. by apply list_elem_of_further, IH.
Qed.
End Keys.

Lemma index_snoc k l : k ∉ l → index k (l ++ [k]) = Some (length l).
Proof.
  induction l as [|y l IH]; simpl.
  - intros _. by rewrite decide_True.
  - rewrite not_elem_of_cons. intros [Hne Hl].
    rewrite decide_False by done. by rewrite IH.
Qed.

Lemma cancel_workflow_queue w k st :
  g_workflow_queue (cancel_workflow w k st).2 = g_workflow_queue st
  ∨ ((cancel_workflow w k st).1 = Returned tt
     ∧ g_workflow_queue (cancel_workflow w k st).2 = od_pop k (g_workflow_queue st)).
Proof.
  rewrite cancel_workflow_cases.
  destruct (od_get k (g_workflow_queue st)) as [[c a l|proc]|]; simpl; eauto.
  destruct (running w proc); simpl; eauto.
  destruct (pid_exists_after_kill w (pid proc)); simpl; eauto.
Qed.

Lemma cancel_workflow_NoDup w k st :
  NoDup (keys (g_workflow_queue st)) →
  NoDup (keys (g_workflow_queue (cancel_workflow w k st).2)).
Proof.
  intros Hnd. destruct (cancel_workflow_queue w k st) as [->|[_ ->]]; [done|].
  by apply keys_od_pop.
Qed.

Lemma run_sos_workflow_NoDup w code raw_args k st :
  NoDup (keys (g_workflow_queue st)) →
  NoDup (keys (g_workflow_queue (run_sos_workflow w code raw_args k st).2)).
Proof.
  intros Hnd. rewrite run_sos_workflow_phases.
  assert (∃ r s1, (if od_mem k (g_workflow_queue st)
                   then cancel_workflow w k st else (Returned tt, st)) = (r, s1)
                  ∧ NoDup (keys (g_workflow_queue s1))) as (r & s1 & -> & Hs1).
  { destruct (od_mem k (g_workflow_queue st)); [|by eauto].
    pose proof (cancel_workflow_NoDup w k st Hnd) as H.
    destruct (cancel_workflow w k st) as [r s1]. by exists r, s1. }
  destruct r as [[]|e]; [|done]. cbv zeta.
  set (s2 := set_queue (List.filter (valid w)) _).
  assert (NoDup (keys (g_workflow_queue s2))) as Hs2.
  { simpl. eapply sublist_NoDup; [|apply keys_filter_sublist].
    by apply keys_od_set_NoDup. }
  clearbody s2.
  destruct (g_workflow_queue s2) as [|[cell [c a l|proc]] q'] eqn:Hq2.
  - simpl. by rewrite Hq2.
  - destruct (start_outcome w) as [e|p]; simpl; [by rewrite Hq2|].
    rewrite report_queue. simpl g_workflow_queue. rewrite Hq2.
    by apply keys_od_set_NoDup.
  - by rewrite report_queue, Hq2.
Qed.

(** A cell has at most one entry in the queue. *)
Lemma reachable_NoDup st : reachable st → NoDup (keys (g_workflow_queue st)).
Proof.
  induction 1 as [h env|st w [code raw_args cell|cell] Hst IH]; simpl.
  - constructor.
  - by apply run_sos_workflow_NoDup.
  - by apply cancel_workflow_NoDup.
Qed.

(** ** What a call adds and what it leaves *)

Lemma added_log st evs : added st (log evs st) = evs.
Proof. unfold added, log. simpl. apply drop_app_length. Qed.

Lemma added_set_queue_log st f evs : added st (set_queue f (log evs st)) = evs.
Proof. unfold added, set_queue, log. simpl. apply drop_app_length. Qed.

Lemma cancel_workflow_returned_queue w k st :
  (cancel_workflow w k st).1 = Returned tt →
  g_workflow_queue (cancel_workflow w k st).2 = od_pop k (g_workflow_queue st).
Proof.
  rewrite cancel_workflow_cases.
  destruct (od_get k (g_workflow_queue st)) as [[c a l|proc]|] eqn:Hget; simpl;
    [done| |].
  - destruct (running w proc); simpl; [|done].
    destruct (pid_exists_after_kill w (pid proc)); simpl; done.
  - intros _. symmetry. by apply od_pop_absent, od_get_None.
Qed.

Lemma cancel_workflow_raised w k st e :
  (cancel_workflow w k st).1 = Raised e →
  e = RuntimeError "Failed to kill workflow"
  ∧ g_workflow_queue (cancel_workflow w k st).2 = g_workflow_queue st.
Proof.
  rewrite cancel_workflow_cases.
  destruct (od_get k (g_workflow_queue st)) as [[c a l|proc]|]; simpl; [done| |done].
  destruct (running w proc); simpl; [|done].
  destruct (pid_exists_after_kill w (pid proc)); simpl; [|done].
  by intros [= <-].
Qed.

(** The first phase of [run_sos_workflow], lines 244-245: it returns with
    the cell popped, or [cancel_workflow] has raised. *)
Lemma cancel_phase w k st :
  ∃ r s1,
    (if od_mem k (g_workflow_queue st)
     then cancel_workflow w k st else (Returned tt, st)) = (r, s1)
    ∧ env_config s1 = env_config st ∧ heap s1 = heap st
    ∧ ((r = Returned tt
        ∧ g_workflow_queue s1 = od_pop k (g_workflow_queue st))
       ∨ (r = Raised (RuntimeError "Failed to kill workflow")
          ∧ od_mem k (g_workflow_queue st) = true
          ∧ s1 = (cancel_workflow w k st).2
          ∧ g_workflow_queue s1 = g_workflow_queue st)).
Proof.
  destruct (od_mem k (g_workflow_queue st)) eqn:Hmem.
  - pose proof (cancel_workflow_returned_queue w k st) as Hret.
    pose proof (cancel_workflow_raised w k st) as Hraise.
    assert (env_config (cancel_workflow w k st).2 = env_config st
            ∧ heap (cancel_workflow w k st).2 = heap st) as [Henv Hheap].
    { rewrite cancel_workflow_cases.
      destruct (od_get k (g_workflow_queue st)) as [[c a l|proc]|]; simpl;
        [done| |done].
      destruct (running w proc); simpl; [|done].
      destruct (pid_exists_after_kill w (pid proc)); simpl; done. }
    destruct (cancel_workflow w k st) as [[[]|e] s1]; simpl in *.
    + exists (Returned tt), s1. split_and!; eauto.
    + destruct (Hraise e eq_refl) as [-> Hq]. eexists _, s1. split_and!; eauto 10.
  - exists (Returned tt), st. split_and!; [done..|]. left. split; [done|].
    symmetry. by apply od_pop_absent, od_mem_false.
Qed.

Lemma report_Returned k st :
  k ∈ keys (g_workflow_queue st) → (report k st).1 = Returned tt.
Proof. intros Hin. unfold report. by destruct (index_Some _ _ Hin) as [i ->]. Qed.

Lemma Forall_filter_valid w q :
  Forall (pending_or_live w) (List.filter (valid w) q).
Proof.
  induction q as [|[k y] q IH]; simpl; [done|].
  destruct (valid w (k, y)) eqn:Hv; [|done]. constructor; [|done].
  unfold pending_or_live, valid in *. simpl in *. destruct y; eauto.
Qed.

(** X1.  A call of [run_sos_workflow] without a kernel raises
    [AttributeError] at line 238 and changes nothing.  With a kernel it
    returns, or raises what [cancel_workflow] raised (the old worker of the
    cell could not be killed: the queue is left as it was and the new
    submission is not queued), or raises what [start] raised.  It never
    raises [StopIteration] at line 254 or [ValueError] at line 266. *)
Theorem run_sos_workflow_raises_only (w : World) (code raw_args : string)
    (kernel : option string) (st : State) :
  let r := run_sos_workflow_kernel w code raw_args kernel st in
  (kernel = None
   ∧ r = (Raised (AttributeError "'NoneType' object has no attribute 'cell_id'"), st))
  ∨ (∃ k, kernel = Some k ∧ r.1 = Returned tt)
  ∨ (∃ k, kernel = Some k
          ∧ r.1 = Raised (RuntimeError "Failed to kill workflow")
          ∧ od_mem k (g_workflow_queue st) = true
          ∧ r.2 = (cancel_workflow w k st).2
          ∧ g_workflow_queue r.2 = g_workflow_queue st)
  ∨ (∃ k e, kernel = Some k ∧ start_outcome w = inl e ∧ r.1 = Raised e).
Proof.
  destruct kernel as [k|]; [right|by left]. simpl.
  rewrite run_sos_workflow_phases.
  destruct (cancel_phase w k st)
    as (r & s1 & -> & _ & _ & [[-> Hq1]|(-> & Hmem & Hs1 & Hq1)]);
    [|right; left; exists k; by rewrite <- Hs1].
  cbv zeta. set (s2 := set_queue (List.filter (valid w)) _).
  assert (k ∈ keys (g_workflow_queue s2)) as Hin.
  { simpl. eapply elem_of_keys_filter_tuple, elem_of_od_set. }
  clearbody s2.
  destruct (g_workflow_queue s2) as [|[cell [c a l|proc]] q'] eqn:Hq2.
  - by apply elem_of_nil in Hin.
  - destruct (start_outcome w) as [e|p]; [right; right; by exists k, e|].
    left. exists k. split; [done|]. apply report_Returned.
    simpl g_workflow_queue. rewrite Hq2.
    rewrite keys_od_set_mem; [done|]. unfold keys. simpl. apply list_elem_of_here.
  - left. exists k. split; [done|]. apply report_Returned. by rewrite Hq2.
Qed.

(** ** Cancelling a worker that has exited *)

Lemma od_get_split {V} k (v : V) d :
  od_get k d = Some v →
  ∃ d1 d2, d = (d1 ++ (k, v) :: d2)%list
           ∧ (k ∉ keys d1)
           ∧ od_pop k d = (d1 ++ d2)%list.
Proof.
  induction d as [|[k' v'] d IH]; simpl; [done|].
  case_decide; subst.
  - intros [= ->]. exists [], d. split_and!; [done|apply not_elem_of_nil|done].
  - intros Hget. destruct (IH Hget) as (d1 & d2 & -> & Hk & ->).
    exists ((k', v') :: d1), d2. split_and!; [done| |done].
    unfold keys. simpl. by apply not_elem_of_cons.
Qed.

(** C10.  Cancelling a cell id whose entry is a worker handle that is no
    longer alive returns without raising.  All it sends is the aborted
    notification: no kill and no terminate call is made.  The entry of the
    cell is removed from the queue, so the cell is no longer in it, and the
    other entries stay as they were, in their order; the config is not
    touched. *)
Theorem cancel_dead_worker (w : World) (cell : string) (st : State)
    (proc : Tapped_Executor) :
  od_get cell (g_workflow_queue st) = Some (Executor proc) →
  running w proc = false →
  let r := cancel_workflow w cell st in
  r.1 = Returned tt
  ∧ events r.2
    = (events st
       ++ [send_frontend_msg "workflow_status"
             {| cell_id := cell; status := "aborted"; msg := None;
                exception := None |}])%list
  ∧ (∃ before after,
       g_workflow_queue st = (before ++ (cell, Executor proc) :: after)%list
       ∧ (cell ∉ keys before)
       ∧ g_workflow_queue r.2 = (before ++ after)%list)
  ∧ (NoDup (keys (g_workflow_queue st)) → cell ∉ keys (g_workflow_queue r.2))
  ∧ (∀ k, k ≠ cell →
          od_get k (g_workflow_queue r.2) = od_get k (g_workflow_queue st))
  ∧ heap r.2 = heap st
  ∧ env_config r.2 = env_config st.
Proof.
  intros Hget Hdead r. unfold r.
  rewrite cancel_workflow_cases, Hget, Hdead. simpl.
  split_and!; try done.
  - destruct (od_get_split _ _ _ Hget) as (d1 & d2 & Hq & Hk & Hpop). eauto.
  - intros Hnd. by apply keys_od_pop.
  - intros k Hne. by apply od_get_od_pop_ne.
Qed.

Lemma cancel_dead_worker_witness :
  let st := perform_all
              [(world true false (inr 100%Z), submit "print(1)" "" "X");
               (world true false (inr 101%Z), submit "print(2)" "" "Y")]
              sample_import in
  let w := world false false (inr 102%Z) in
  od_get "X" (g_workflow_queue st)
  = Some (Executor (mkExecutor "print(1)" "" 1%positive 100))
  ∧ running w (mkExecutor "print(1)" "" 1%positive 100) = false
  ∧ (cancel_workflow w "X" st).1 = Returned tt
  ∧ events (cancel_workflow w "X" st).2 = (events st ++ [aborted "X"])%list
  ∧ keys (g_workflow_queue (cancel_workflow w "X" st).2) = ["Y"].
Proof.
  intros st w.
  destruct (cancel_dead_worker w "X" st (mkExecutor "print(1)" "" 1%positive 100))
    as (Hret & Hev & _); [reflexivity..|].
  split_and!; [reflexivity | reflexivity | exact Hret | exact Hev | reflexivity].
Defined.

(** ** A worker that fails to start, in any queue *)

Lemma od_get_od_set_eq {V} k (v : V) d : od_get k (od_set k v d) = Some v.
Proof.
  induction d as [|[k' v'] d IH]; simpl.
  - by rewrite decide_True.
  - destruct (decide (k' = k)) as [->|Hne]; simpl.
    + by rewrite decide_True.
    + by rewrite decide_False.
Qed.

(** With every other worker dead, what the filter of lines 248-250 keeps of
    the queue without [k] is the pending tuples of the other cells. *)
Lemma filter_valid_od_pop w k q :
  NoDup (keys q) →
  (∀ cell proc, (cell, Executor proc) ∈ q → cell ≠ k → running w proc = false) →
  List.filter (valid w) (od_pop k q)
  = List.filter (λ item, is_tuple item.2 && bool_decide (item.1 ≠ k)) q.
Proof.
  unfold keys. induction q as [|[k' v'] q IH]; simpl; [done|].
  rewrite NoDup_cons. intros [Hk' Hnd] Hdead.
  assert (List.filter (valid w) (od_pop k q)
          = List.filter (λ item, is_tuple item.2 && bool_decide (item.1 ≠ k)) q)
    as IH'.
  { apply IH; [done|]. intros cell proc Hin. apply Hdead. by apply list_elem_of_further. }
  destruct (decide (k' = k)) as [->|Hne].
  - rewrite bool_decide_eq_false_2 by (by intros ?). rewrite andb_false_r.
    by rewrite <- IH', od_pop_absent.
  - simpl. rewrite bool_decide_eq_true_2 by done. rewrite andb_true_r, IH'.
    destruct v' as [c a l|proc]; [done|].
    unfold valid at 1. simpl. by rewrite (Hdead k' proc) by (done || apply list_elem_of_here).
Qed.

Lemma executors_filter_tuple k q :
  executors (List.filter (λ item, is_tuple item.2 && bool_decide (item.1 ≠ k)) q) = [].
Proof.
  unfold executors. induction q as [|[k' v'] q IH]; simpl; [done|].
  destruct v' as [c a l|proc]; simpl; [|done].
  destruct (bool_decide (k' ≠ k)); simpl; done.
Qed.

(** C6, amended.  When every worker in the queue, but for the old worker
    of the submitted cell, has exited, the head of the pruned queue is a
    pending tuple; if [start] raises for it, [run_sos_workflow] raises that
    exception to its caller.  No failed and no pending status is sent: the
    call sends nothing, or, when the cell was queued already, what its
    cancellation sends, the aborted notification first.  The queue keeps
    the pending tuples of the other cells, in their order, with the
    submitted one last, and holds no worker handle. *)
Theorem failed_start_propagates (w : World) (code raw_args k : string)
    (st : State) (e : Exception) :
  NoDup (keys (g_workflow_queue st)) →
  start_outcome w = inl e →
  (cancel_workflow w k st).1 = Returned tt →
  (∀ cell proc, (cell, Executor proc) ∈ g_workflow_queue st → cell ≠ k →
                running w proc = false) →
  let r := run_sos_workflow w code raw_args k st in
  r.1 = Raised e
  ∧ g_workflow_queue r.2
    = (List.filter (λ item, is_tuple item.2 && bool_decide (item.1 ≠ k))
         (g_workflow_queue st)
       ++ [(k, Tuple code raw_args (env_config st))])%list
  ∧ od_get k (g_workflow_queue r.2) = Some (Tuple code raw_args (env_config st))
  ∧ executors (g_workflow_queue r.2) = []
  ∧ (∀ k' c a l, k' ≠ k →
       od_get k' (g_workflow_queue st) = Some (Tuple c a l) →
       od_get k' (g_workflow_queue r.2) = Some (Tuple c a l))
  ∧ ((k ∉ keys (g_workflow_queue st)) → events r.2 = events st)
  ∧ (k ∈ keys (g_workflow_queue st) →
     ∃ kill,
       events r.2
       = (events st
          ++ send_frontend_msg "workflow_status"
               {| cell_id := k; status := "aborted"; msg := None;
                  exception := None |} :: kill)%list
       ∧ (kill = [] ∨ ∃ p, kill = [kill_all_subprocesses p true; terminate p]))
  ∧ (∀ t m, send_frontend_msg t m ∈ added st r.2 → status m = "aborted").
Proof.
  intros Hnd Hstart Hcancel Hdead r. unfold r. clear r.
  rewrite run_sos_workflow_phases.
  assert (∃ s1 evs,
            (if od_mem k (g_workflow_queue st)
             then cancel_workflow w k st else (Returned tt, st)) = (Returned tt, s1)
            ∧ g_workflow_queue s1 = od_pop k (g_workflow_queue st)
            ∧ env_config s1 = env_config st
            ∧ events s1 = (events st ++ evs)%list
            ∧ ((k ∉ keys (g_workflow_queue st)) → evs = [])
            ∧ (k ∈ keys (g_workflow_queue st) →
               ∃ kill, evs = aborted k :: kill
                       ∧ (kill = []
                          ∨ ∃ p, kill = [kill_all_subprocesses p true; terminate p])))
    as (s1 & evs & -> & Hq1 & Henv1 & Hev1 & Hout & Hin).
  { destruct (od_mem k (g_workflow_queue st)) eqn:Hmem.
    - assert (k ∈ keys (g_workflow_queue st)) as Hk.
      { destruct (decide (k ∈ keys (g_workflow_queue st))) as [?|Hn]; [done|].
        apply od_mem_false in Hn. congruence. }
      revert Hcancel. rewrite cancel_workflow_cases.
      destruct (od_get k (g_workflow_queue st)) as [[c a l|proc]|] eqn:Hget.
      + intros _. eexists _, [aborted k]. split_and!; [done..| |by eauto].
        intros Hn. by destruct Hn.
      + destruct (running w proc).
        * destruct (pid_exists_after_kill w (pid proc)); [done|]. intros _.
          eexists _, [aborted k; kill_all_subprocesses (pid proc) true;
                      terminate (pid proc)].
          split_and!; [done..| |by eauto 10]. intros Hn. by destruct Hn.
        * intros _. eexists _, [aborted k]. split_and!; [done..| |by eauto].
          intros Hn. by destruct Hn.
      + apply od_get_None in Hget. done.
    - apply od_mem_false in Hmem. exists st, [].
      split_and!; [done| |done|by rewrite app_nil_r|done|done].
      symmetry. by apply od_pop_absent. }
  cbv zeta. set (s2 := set_queue (List.filter (valid w)) _).
  pose (T := Tuple code raw_args (env_config st)).
  assert (g_workflow_queue s2
          = List.filter (valid w) (od_set k T (od_pop k (g_workflow_queue st))))
    as Hq2 by (unfold T; simpl; by rewrite Hq1, Henv1).
  assert (g_workflow_queue s2
          = (List.filter (λ item, is_tuple item.2 && bool_decide (item.1 ≠ k))
               (g_workflow_queue st) ++ [(k, T)])%list) as Hq2'.
  { rewrite Hq2, od_set_fresh by (by apply keys_od_pop).
    rewrite List.filter_app. simpl. by rewrite filter_valid_od_pop. }
  assert (events s2 = (events st ++ evs)%list) as Hev2 by done.
  assert (executors (g_workflow_queue s2) = []) as Hex2.
  { by rewrite Hq2', executors_app, executors_filter_tuple. }
  clearbody s2.
  assert (∃ cell c a l q', g_workflow_queue s2 = (cell, Tuple c a l) :: q')
    as (cell & c & a & l & q' & Hq).
  { destruct (g_workflow_queue s2) as [|[cell [c a l|proc]] q'];
      [by destruct (List.filter _ (g_workflow_queue st))|by eauto 10|done]. }
  rewrite Hq, Hstart. cbn [fst snd].
  assert (g_workflow_queue
            (set_heap (alter (set_slave_id cell) (env_config s2)) s2)
          = g_workflow_queue s2) as Hq3 by done.
  assert (events (set_heap (alter (set_slave_id cell) (env_config s2)) s2)
          = events s2) as Hev3 by done.
  clear Hq.
  rewrite Hq3, Hev3, Hev2.
  split_and!.
  - done.
  - by rewrite Hq2'.
  - rewrite Hq2. apply od_get_filter_tuple, od_get_od_set_eq.
  - done.
  - intros k' c' a' l' Hne Hget. rewrite Hq2. apply od_get_filter_tuple.
    by rewrite od_get_od_set_ne, od_get_od_pop_ne.
  - intros Hk. by rewrite (Hout Hk), app_nil_r.
  - intros Hk. destruct (Hin Hk) as (kill & -> & Hkill). by exists kill.
  - intros t m. unfold added. rewrite Hev3, Hev2, drop_app_length.
    destruct (decide (k ∈ keys (g_workflow_queue st))) as [Hk|Hk].
    + destruct (Hin Hk) as (kill & -> & [->|[p ->]]); unfold aborted;
        intros Hm; repeat (apply elem_of_cons in Hm as [Hm|Hm];
                           [by simplify_eq|]); by apply elem_of_nil in Hm.
    + rewrite (Hout Hk). intros Hm. by apply elem_of_nil in Hm.
Qed.

Lemma failed_start_propagates_witness :
  let e := mkException "OSError" "[Errno 11] Resource temporarily unavailable" in
  let w := world true false (inl e) in
  let st := (run_sos_workflow w "print(1)" "" "A" sample_import).2 in
  NoDup (keys (g_workflow_queue st))
  ∧ (cancel_workflow w "A" st).1 = Returned tt
  ∧ (run_sos_workflow w "print(2)" "" "A" st).1 = Raised e
  ∧ g_workflow_queue (run_sos_workflow w "print(2)" "" "A" st).2
    = [("A", Tuple "print(2)" "" 1%positive)]
  ∧ events (run_sos_workflow w "print(2)" "" "A" st).2 = [aborted "A"].
Proof.
  intros e w st.
  assert (NoDup (keys (g_workflow_queue st))) as Hnd
    by (vm_compute; apply NoDup_singleton).
  destruct (failed_start_propagates w "print(2)" "" "A" st e Hnd)
    as (Hraise & Hqueue & _); [reflexivity | reflexivity | |].
  { intros cell proc Hin.
    change (g_workflow_queue st) with [("A", Tuple "print(1)" "" 1%positive)] in Hin.
    apply list_elem_of_singleton in Hin. discriminate. }
  split_and!; [exact Hnd | reflexivity | exact Hraise | exact Hqueue | reflexivity].
Defined.

(** ** What a submission leaves *)

(** X2.  When [run_sos_workflow] returns, the first entry of the queue is a
    worker handle, and no entry is a worker that this call found dead:
    every handle in the queue answered alive or was started by this call. *)
Theorem submit_leaves_live_head (w : World) (code raw_args k : string) (st : State) :
  (run_sos_workflow w code raw_args k st).1 = Returned tt →
  (∃ cell proc q',
     g_workflow_queue (run_sos_workflow w code raw_args k st).2
     = (cell, Executor proc) :: q')
  ∧ Forall (pending_or_live w)
      (g_workflow_queue (run_sos_workflow w code raw_args k st).2).
Proof.
  rewrite run_sos_workflow_phases.
  destruct (cancel_phase w k st)
    as (r & s1 & -> & _ & _ & [[-> Hq1]|(-> & Hmem & Hs1 & Hq1)]); [|done].
  cbv zeta. set (s2 := set_queue (List.filter (valid w)) _).
  assert (Forall (pending_or_live w) (g_workflow_queue s2)) as Hall
    by apply Forall_filter_valid.
  clearbody s2.
  destruct (g_workflow_queue s2) as [|[cell [c a l|proc]] q'] eqn:Hq2; [done| |].
  - destruct (start_outcome w) as [e|p] eqn:Hstart; [done|]. intros _.
    rewrite report_queue. simpl g_workflow_queue. rewrite Hq2.
    simpl. rewrite decide_True by done. split; [by eauto|].
    inversion Hall; subst. constructor; [|done].
    unfold pending_or_live. simpl. by right.
  - intros _. rewrite report_queue, Hq2. split; [by eauto|done].
Qed.

Lemma submit_leaves_live_head_witness :
  let st := perform_all
              [(world true false (inr 100%Z), submit "print(1)" "" "X");
               (world true false (inr 101%Z), submit "print(2)" "" "Y")]
              sample_import in
  let w := world false false (inr 102%Z) in
  (run_sos_workflow w "print(3)" "" "Z" st).1 = Returned tt
  ∧ Forall (pending_or_live w)
      (g_workflow_queue (run_sos_workflow w "print(3)" "" "Z" st).2).
Proof.
  intros st w. split; [reflexivity|].
  apply (submit_leaves_live_head w "print(3)" "" "Z" st). reflexivity.
Defined.

(** The keys of the queue after a call whose first phase returned: the
    cell is popped and appended, the dead workers are dropped; promoting
    the head does not change the keys. *)
Lemma run_sos_workflow_keys w code raw_args k st :
  (od_mem k (g_workflow_queue st) = true →
   (cancel_workflow w k st).1 = Returned tt) →
  g_workflow_queue (run_sos_workflow w code raw_args k st).2
  = List.filter (valid w)
      (od_set k (Tuple code raw_args (env_config st))
         (od_pop k (g_workflow_queue st)))
  ∨ ∃ cell c a l p q',
      List.filter (valid w)
        (od_set k (Tuple code raw_args (env_config st))
           (od_pop k (g_workflow_queue st)))
      = (cell, Tuple c a l) :: q'
      ∧ start_outcome w = inr p
      ∧ g_workflow_queue (run_sos_workflow w code raw_args k st).2
        = (cell, Executor (mkExecutor c a l p)) :: q'.
Proof.
  intros Hcancel. rewrite run_sos_workflow_phases.
  destruct (cancel_phase w k st)
    as (r & s1 & Hif & Henv & _ & [[-> Hq1]|(-> & Hmem & _ & Hq1)]).
  2:{ specialize (Hcancel Hmem). rewrite Hmem in Hif. by rewrite Hif in Hcancel. }
  rewrite Hif.
  cbv zeta. set (s2 := set_queue (List.filter (valid w)) _).
  assert (g_workflow_queue s2
          = List.filter (valid w)
              (od_set k (Tuple code raw_args (env_config st))
                 (od_pop k (g_workflow_queue st)))) as Hs2.
  { simpl. by rewrite Henv, Hq1. }
  clearbody s2. rewrite <- Hs2.
  destruct (g_workflow_queue s2) as [|[cell [c a l|proc]] q'] eqn:Hq2.
  - left. simpl. by rewrite Hq2.
  - destruct (start_outcome w) as [e|p]; [left; simpl; by rewrite Hq2|].
    right. exists cell, c, a, l, p, q'. split_and!; [done..|].
    rewrite report_queue. simpl g_workflow_queue. rewrite Hq2. simpl.
    by rewrite decide_True.
  - left. by rewrite report_queue, Hq2.
Qed.

Lemma run_sos_workflow_keys_eq w code raw_args k st :
  (od_mem k (g_workflow_queue st) = true →
   (cancel_workflow w k st).1 = Returned tt) →
  keys (g_workflow_queue (run_sos_workflow w code raw_args k st).2)
  = keys (List.filter (valid w)
            (od_set k (Tuple code raw_args (env_config st))
               (od_pop k (g_workflow_queue st)))).
Proof.
  intros Hcancel.
  destruct (run_sos_workflow_keys w code raw_args k st Hcancel)
    as [->|(cell & c & a & l & p & q' & -> & _ & ->)]; done.
Qed.

Lemma run_sos_workflow_returned_cancel w code raw_args k st :
  (run_sos_workflow w code raw_args k st).1 = Returned tt →
  od_mem k (g_workflow_queue st) = true →
  (cancel_workflow w k st).1 = Returned tt.
Proof.
  rewrite run_sos_workflow_phases. intros Hret Hmem. rewrite Hmem in Hret.
  destruct (cancel_workflow w k st) as [[[]|e] s1]; done.
Qed.

(** X3.  A submission that returns never reorders the queue: the other
    cells keep their relative order (dead workers dropped), the submitted
    cell is the last entry whether it is new or was queued before, and the
    position reported for it is the number of entries in the queue. *)
Theorem submit_appends_last (w : World) (code raw_args k : string) (st : State) :
  NoDup (keys (g_workflow_queue st)) →
  (run_sos_workflow w code raw_args k st).1 = Returned tt →
  keys (g_workflow_queue (run_sos_workflow w code raw_args k st).2)
  = (keys (List.filter (valid w) (od_pop k (g_workflow_queue st))) ++ [k])%list
  ∧ ∃ evs,
      events (run_sos_workflow w code raw_args k st).2
      = (evs ++ [send_frontend_msg "workflow_status"
                   (mkStatusMsg k "pending"
                      (Some ("#" +:+ pretty (length (g_workflow_queue
                               (run_sos_workflow w code raw_args k st).2))
                             +:+ " in queue")) None)])%list.
Proof.
  intros Hnd Hret.
  pose proof (run_sos_workflow_returned_cancel _ _ _ _ _ Hret) as Hcancel.
  destruct (keys_od_pop k _ Hnd) as [_ Hfresh].
  assert (keys (g_workflow_queue (run_sos_workflow w code raw_args k st).2)
          = (keys (List.filter (valid w) (od_pop k (g_workflow_queue st)))
             ++ [k])%list) as Hkeys.
  { rewrite run_sos_workflow_keys_eq by done.
    rewrite od_set_fresh, List.filter_app by done. unfold keys.
    by rewrite fmap_app. }
  split; [done|].
  destruct (run_sos_workflow_reports _ _ _ _ _ Hret) as (i & evs & Hi & ->).
  exists evs. unfold pending, position_msg.
  assert (length (g_workflow_queue (run_sos_workflow w code raw_args k st).2)
          = (i + 1)%nat) as ->; [|done].
  rewrite Hkeys, index_snoc in Hi by by apply keys_list_filter.
  injection Hi as <-.
  rewrite <- (length_fmap fst (g_workflow_queue _)).
  fold (keys (g_workflow_queue (run_sos_workflow w code raw_args k st).2)).
  rewrite Hkeys, length_app. simpl. lia.
Qed.

Lemma submit_appends_last_witness :
  let st := perform_all
              [(world true false (inr 100%Z), submit "print(1)" "" "X");
               (world true false (inr 101%Z), submit "print(2)" "" "Y");
               (world true false (inr 102%Z), submit "print(3)" "" "Z")]
              sample_import in
  let w := world true false (inr 103%Z) in
  NoDup (keys (g_workflow_queue st))
  ∧ (run_sos_workflow w "print(4)" "" "Y" st).1 = Returned tt
  ∧ keys (g_workflow_queue (run_sos_workflow w "print(4)" "" "Y" st).2)
    = ["X"; "Z"; "Y"].
Proof.
  intros st w.
  assert (NoDup (keys (g_workflow_queue st))) as Hnd
    by apply reachable_NoDup, reachable_perform_all, sample_import_reachable.
  split_and!; [exact Hnd | reflexivity |].
  destruct (submit_appends_last w "print(4)" "" "Y" st Hnd eq_refl) as [Hkeys _].
  rewrite Hkeys. reflexivity.
Defined.

(** ** Cancelling *)

Lemma cancel_workflow_config w k st :
  heap (cancel_workflow w k st).2 = heap st
  ∧ env_config (cancel_workflow w k st).2 = env_config st.
Proof.
  rewrite cancel_workflow_cases.
  destruct (od_get k (g_workflow_queue st)) as [[c a l|proc]|]; simpl;
    [done| |done].
  destruct (running w proc); simpl; [|done].
  destruct (pid_exists_after_kill w (pid proc)); done.
Qed.

Lemma cancel_workflow_added w k st :
  added st (cancel_workflow w k st).2 = [aborted k]
  ∨ ∃ proc,
      od_get k (g_workflow_queue st) = Some (Executor proc)
      ∧ running w proc = true
      ∧ added st (cancel_workflow w k st).2
        = [aborted k; kill_all_subprocesses (pid proc) true;
           terminate (pid proc)].
Proof.
  rewrite cancel_workflow_cases.
  destruct (od_get k (g_workflow_queue st)) as [[c a l|proc]|]; simpl.
  - left. apply added_set_queue_log.
  - destruct (running w proc) eqn:Hlive; [|left; apply added_set_queue_log].
    right. exists proc. split_and!; [done..|].
    destruct (pid_exists_after_kill w (pid proc));
      [apply added_log | apply added_set_queue_log].
  - left. apply added_log.
Qed.

(** X4.  When [cancel_workflow] returns, the cell is gone from the queue,
    every other cell has the entry it had, in the same order, and the
    config is untouched; cancelling the same cell again only sends the
    aborted notification once more. *)
Theorem cancel_removes_cell (w : World) (k : string) (st : State) :
  NoDup (keys (g_workflow_queue st)) →
  (cancel_workflow w k st).1 = Returned tt →
  (k ∉ keys (g_workflow_queue (cancel_workflow w k st).2))
  ∧ g_workflow_queue (cancel_workflow w k st).2 = od_pop k (g_workflow_queue st)
  ∧ (∀ k', k' ≠ k →
       od_get k' (g_workflow_queue (cancel_workflow w k st).2)
       = od_get k' (g_workflow_queue st))
  ∧ heap (cancel_workflow w k st).2 = heap st
  ∧ env_config (cancel_workflow w k st).2 = env_config st
  ∧ ∀ w', cancel_workflow w' k (cancel_workflow w k st).2
          = (Returned tt, log [aborted k] (cancel_workflow w k st).2).
Proof.
  intros Hnd Hret.
  pose proof (cancel_workflow_returned_queue w k st Hret) as Hq.
  destruct (keys_od_pop k _ Hnd) as [_ Hfresh]. rewrite <- Hq in Hfresh.
  destruct (cancel_workflow_config w k st) as [Hheap Henv].
  split_and!; [done|done| |done|done|].
  - intros k' Hne. rewrite Hq. by apply od_get_od_pop_ne.
  - intros w'. rewrite (cancel_workflow_cases w' k).
    apply od_get_None in Hfresh. by rewrite Hfresh.
Qed.

Lemma cancel_removes_cell_witness :
  let st := perform_all
              [(world true false (inr 100%Z), submit "print(1)" "" "X");
               (world true false (inr 101%Z), submit "print(2)" "" "Y")]
              sample_import in
  let w := world true false (inr 102%Z) in
  NoDup (keys (g_workflow_queue st))
  ∧ (cancel_workflow w "Y" st).1 = Returned tt
  ∧ ("Y" ∉ keys (g_workflow_queue (cancel_workflow w "Y" st).2)).
Proof.
  intros st w.
  assert (NoDup (keys (g_workflow_queue st))) as Hnd
    by apply reachable_NoDup, reachable_perform_all, sample_import_reachable.
  split_and!; [exact Hnd | reflexivity |].
  apply (cancel_removes_cell w "Y" st Hnd). reflexivity.
Defined.

(** X5.  [cancel_workflow] does nothing but send the aborted notification,
    unless the cell holds a worker that answers alive: then it kills and
    terminates the process of that worker, and no other.  It starts no
    worker, sends no other message and leaves the config alone. *)
Theorem cancel_touches_only_its_worker (w : World) (k : string) (st : State) :
  (added st (cancel_workflow w k st).2 = [aborted k]
   ∨ ∃ proc,
       od_get k (g_workflow_queue st) = Some (Executor proc)
       ∧ running w proc = true
       ∧ added st (cancel_workflow w k st).2
         = [aborted k; kill_all_subprocesses (pid proc) true;
            terminate (pid proc)])
  ∧ heap (cancel_workflow w k st).2 = heap st
  ∧ env_config (cancel_workflow w k st).2 = env_config st.
Proof. split; [apply cancel_workflow_added | apply cancel_workflow_config]. Qed.

(** X6.  Cancelling does not promote: when the running head is cancelled,
    the queue is left with pending tuples only, and no worker is started
    until the next submission. *)
Theorem cancel_head_leaves_no_worker (w : World) (k : string) (st : State)
    (proc : Tapped_Executor) :
  reachable st →
  od_get k (g_workflow_queue st) = Some (Executor proc) →
  (cancel_workflow w k st).1 = Returned tt →
  executors (g_workflow_queue (cancel_workflow w k st).2) = []
  ∧ g_workflow_queue (cancel_workflow w k st).2 = tail (g_workflow_queue st)
  ∧ ∀ p cfg, start p cfg ∉ added st (cancel_workflow w k st).2.
Proof.
  intros Hst%reachable_single_flight Hget Hret.
  rewrite (cancel_workflow_returned_queue w k st Hret).
  assert (od_pop k (g_workflow_queue st) = tail (g_workflow_queue st)
          ∧ Forall (λ item, is_tuple item.2 = true) (tail (g_workflow_queue st)))
    as [-> Htail].
  { unfold single_flight in Hst.
    destruct (g_workflow_queue st) as [|[k' y] q]; [done|]. simpl in *.
    destruct (decide (k' = k)) as [->|Hne]; [done|].
    apply od_get_elem_of in Hget.
    rewrite Forall_forall in Hst. by apply Hst in Hget. }
  split_and!; [|done|].
  - unfold executors. induction Htail as [|x q Hx Hq IH]; simpl; [done|].
    by rewrite Hx.
  - intros p cfg Hin.
    destruct (cancel_workflow_added w k st) as [Hev|(pr & _ & _ & Hev)];
      rewrite Hev in Hin; unfold aborted in Hin;
      repeat (apply elem_of_cons in Hin as [Hin|Hin]; [discriminate|]);
      by apply elem_of_nil in Hin.
Qed.

Lemma cancel_head_leaves_no_worker_witness :
  let st := perform_all
              [(world true false (inr 100%Z), submit "print(1)" "" "X");
               (world true false (inr 101%Z), submit "print(2)" "" "Y")]
              sample_import in
  let w := world true false (inr 102%Z) in
  reachable st
  ∧ od_get "X" (g_workflow_queue st)
    = Some (Executor (mkExecutor "print(1)" "" 1%positive 100))
  ∧ (cancel_workflow w "X" st).1 = Returned tt
  ∧ executors (g_workflow_queue (cancel_workflow w "X" st).2) = [].
Proof.
  intros st w.
  assert (reachable st) as Hst
    by apply reachable_perform_all, sample_import_reachable.
  split_and!; [exact Hst | reflexivity | reflexivity |].
  apply (cancel_head_leaves_no_worker w "X" st
           (mkExecutor "print(1)" "" 1%positive 100) Hst); reflexivity.
Defined.

(** ** Waiting and pruning *)

Lemma cancel_raise_keeps_queue w code raw_args k st :
  g_workflow_queue (run_sos_workflow w code raw_args k st).2 = g_workflow_queue st
  ∨ (od_mem k (g_workflow_queue st) = true →
     (cancel_workflow w k st).1 = Returned tt).
Proof.
  destruct (od_mem k (g_workflow_queue st)) eqn:Hmem; [|by right].
  destruct (cancel_workflow w k st) as [[[]|e] s1] eqn:Hc; [by right|].
  left. rewrite run_sos_workflow_phases, Hmem, Hc. simpl.
  replace s1 with (cancel_workflow w k st).2 by by rewrite Hc.
  eapply cancel_workflow_raised. by rewrite Hc.
Qed.

(** The queue after [run_sos_workflow], whatever the outcome. *)
Lemma run_sos_workflow_raises_or_keys w code raw_args k st :
  g_workflow_queue (run_sos_workflow w code raw_args k st).2 = g_workflow_queue st
  ∨ g_workflow_queue (run_sos_workflow w code raw_args k st).2
    = List.filter (valid w)
        (od_set k (Tuple code raw_args (env_config st))
           (od_pop k (g_workflow_queue st)))
  ∨ ∃ cell c a l p q',
      List.filter (valid w)
        (od_set k (Tuple code raw_args (env_config st))
           (od_pop k (g_workflow_queue st)))
      = (cell, Tuple c a l) :: q'
      ∧ start_outcome w = inr p
      ∧ g_workflow_queue (run_sos_workflow w code raw_args k st).2
        = (cell, Executor (mkExecutor c a l p)) :: q'.
Proof.
  destruct (cancel_raise_keeps_queue w code raw_args k st) as [H|H];
    [by left|].
  right. by apply run_sos_workflow_keys.
Qed.

(** X7.  A pending submission is never dropped by a call about another
    cell: afterwards its cell still holds the same tuple, or the worker that
    this call started from it. *)
Theorem pending_entry_survives (w : World) (c : Call) (st : State)
    (k code raw_args : string) (l : loc) :
  target c ≠ k →
  od_get k (g_workflow_queue st) = Some (Tuple code raw_args l) →
  od_get k (g_workflow_queue (perform w c st).2) = Some (Tuple code raw_args l)
  ∨ ∃ p, start_outcome w = inr p
         ∧ od_get k (g_workflow_queue (perform w c st).2)
           = Some (Executor (mkExecutor code raw_args l p)).
Proof.
  intros Hne Hget. destruct c as [code' args' k'|k']; simpl in Hne; simpl perform.
  - assert (od_get k (List.filter (valid w)
              (od_set k' (Tuple code' args' (env_config st))
                 (od_pop k' (g_workflow_queue st))))
            = Some (Tuple code raw_args l)) as Hget2.
    { apply od_get_filter_tuple.
      by rewrite od_get_od_set_ne, od_get_od_pop_ne. }
    destruct (run_sos_workflow_raises_or_keys w code' args' k' st)
      as [Hq|[->|(cell & c0 & a0 & l0 & p & q' & Hf & Hstart & ->)]].
    + left. by rewrite Hq.
    + by left.
    + rewrite Hf in Hget2. simpl in *.
      destruct (decide (cell = k)) as [->|Hcell].
      * injection Hget2 as -> -> ->. right. by exists p.
      * by left.
  - left. destruct (cancel_workflow_frame w k k' st Hne) as (-> & _). done.
Qed.

Lemma pending_entry_survives_witness :
  let st := perform_all
              [(world true false (inr 100%Z), submit "print(1)" "" "X");
               (world true false (inr 101%Z), submit "print(2)" "" "Y")]
              sample_import in
  let w := world true false (inr 102%Z) in
  target (cancel "X") ≠ "Y"
  ∧ od_get "Y" (g_workflow_queue st) = Some (Tuple "print(2)" "" 1%positive)
  ∧ (od_get "Y" (g_workflow_queue (perform w (cancel "X") st).2)
     = Some (Tuple "print(2)" "" 1%positive)
     ∨ ∃ p, start_outcome w = inr p
            ∧ od_get "Y" (g_workflow_queue (perform w (cancel "X") st).2)
              = Some (Executor (mkExecutor "print(2)" "" 1%positive p))).
Proof.
  intros st w. split_and!; [discriminate | reflexivity |].
  apply (pending_entry_survives w (cancel "X") st "Y" "print(2)" "" 1%positive);
    [discriminate | reflexivity].
Defined.

Lemma elem_of_od_set_inv {V} (x : string * V) k v d :
  x ∈ od_set k v d → x = (k, v) ∨ x ∈ d.
Proof.
  induction d as [|[k' v'] d IH]; simpl.
  - intros ->%list_elem_of_singleton. by left.
  - case_decide.
    + intros [->|Hin]%elem_of_cons; [by left|].
      right. by apply list_elem_of_further.
    + intros [->|Hin]%elem_of_cons; [right; apply list_elem_of_here|].
      destruct (IH Hin) as [->|Hd]; [by left|].
      right. by apply list_elem_of_further.
Qed.

Lemma elem_of_list_filter_valid w (x : string * QueueEntry) q :
  x ∈ List.filter (valid w) q → valid w x = true ∧ x ∈ q.
Proof.
  rewrite !list_elem_of_In. intros [Hin Hv]%List.filter_In. done.
Qed.

(** Behind a worker handle, every cell holds a pending tuple or nothing,
    so cancelling it cannot raise. *)
Lemma single_flight_cancel_other w st cell proc k :
  single_flight (g_workflow_queue st) →
  od_get cell (g_workflow_queue st) = Some (Executor proc) →
  cell ≠ k →
  (cancel_workflow w k st).1 = Returned tt.
Proof.
  unfold single_flight. intros Hsf Hcell Hne. rewrite cancel_workflow_cases.
  destruct (od_get k (g_workflow_queue st)) as [[c a l|proc']|] eqn:Hk;
    [done| |done].
  exfalso. destruct (g_workflow_queue st) as [|[k' y] q]; [done|]. simpl in *.
  rewrite Forall_forall in Hsf.
  destruct (decide (k' = cell)) as [->|Hc].
  - rewrite decide_False in Hk by done.
    apply od_get_elem_of in Hk. by apply Hsf in Hk.
  - apply od_get_elem_of in Hcell. by apply Hsf in Hcell.
Qed.

(** X8.  A worker that has died is pruned by the next submission of
    another cell: whether that call returns or [start] raises, the cell of
    the dead worker is no longer in the queue. *)
Theorem dead_worker_is_pruned (w : World) (code raw_args k cell : string)
    (st : State) (proc : Tapped_Executor) :
  reachable st →
  od_get cell (g_workflow_queue st) = Some (Executor proc) →
  running w proc = false →
  cell ≠ k →
  cell ∉ keys (g_workflow_queue (run_sos_workflow w code raw_args k st).2).
Proof.
  intros Hst Hcell Hdead Hne.
  pose proof (reachable_NoDup st Hst) as Hnd.
  pose proof (reachable_single_flight st Hst) as Hsf.
  rewrite run_sos_workflow_keys_eq
    by (intros _; by eapply single_flight_cancel_other).
  intros [y Hin]%elem_of_keys.
  apply elem_of_list_filter_valid in Hin as [Hv Hin].
  apply elem_of_od_set_inv in Hin as [[= ? ?]|Hin]; [done|].
  apply elem_of_od_pop in Hin.
  rewrite (NoDup_keys_od_get _ _ _ Hnd Hin) in Hcell. injection Hcell as ->.
  unfold valid in Hv. simpl in Hv. congruence.
Qed.

Lemma dead_worker_is_pruned_witness :
  let st := perform_all
              [(world true false (inr 100%Z), submit "print(1)" "" "X");
               (world true false (inr 101%Z), submit "print(2)" "" "Y")]
              sample_import in
  let w := world false false (inr 102%Z) in
  reachable st
  ∧ od_get "X" (g_workflow_queue st)
    = Some (Executor (mkExecutor "print(1)" "" 1%positive 100))
  ∧ running w (mkExecutor "print(1)" "" 1%positive 100) = false
  ∧ "X" ≠ "Z"
  ∧ ("X" ∉ keys (g_workflow_queue (run_sos_workflow w "print(3)" "" "Z" st).2)).
Proof.
  intros st w.
  assert (reachable st) as Hst
    by apply reachable_perform_all, sample_import_reachable.
  split_and!; [exact Hst | reflexivity | reflexivity | discriminate |].
  apply (dead_worker_is_pruned w "print(3)" "" "Z" "X" st
           (mkExecutor "print(1)" "" 1%positive 100) Hst);
    [reflexivity | reflexivity | discriminate].
Defined.

(** ** From the queue to the worker *)

Lemma cancel_workflow_shape w k st :
  ∃ evs, (cancel_workflow w k st).2 = log evs st
         ∨ (cancel_workflow w k st).2 = set_queue (od_pop k) (log evs st).
Proof.
  rewrite cancel_workflow_cases.
  destruct (od_get k (g_workflow_queue st)) as [[c a l|proc]|]; simpl; [by eauto| |by eauto].
  destruct (running w proc); simpl; [|by eauto].
  destruct (pid_exists_after_kill w (pid proc)); simpl; by eauto.
Qed.

Lemma cancel_workflow_forked_for w k st :
  forked_for_its_cell st → forked_for_its_cell (cancel_workflow w k st).2.
Proof.
  intros Hst cell proc c'.
  destruct (cancel_workflow_shape w k st) as [evs [->| ->]]; simpl.
  - intros Hin Hc'. destruct (Hst cell proc c' Hin Hc') as (c & Hev & ?).
    exists c. split; [|done]. apply elem_of_app. by left.
  - intros Hin%elem_of_od_pop Hc'.
    destruct (Hst cell proc c' Hin Hc') as (c & Hev & ?).
    exists c. split; [|done]. apply elem_of_app. by left.
Qed.

Lemma report_events k st :
  ∃ evs, events (report k st).2 = (events st ++ evs)%list.
Proof.
  unfold report. destruct (index _ _); simpl; [by eauto|].
  exists []. by rewrite app_nil_r.
Qed.

Lemma report_forked_for k st :
  forked_for_its_cell st → forked_for_its_cell (report k st).2.
Proof.
  intros Hst cell proc c'.
  destruct (report_frame k st) as (-> & -> & ->).
  destruct (report_events k st) as [evs ->].
  intros Hin Hc'. destruct (Hst cell proc c' Hin Hc') as (c & Hev & ?).
  exists c. split; [|done]. apply elem_of_app. by left.
Qed.

Lemma run_sos_workflow_forked_for w code raw_args k st :
  aliased st → forked_for_its_cell st →
  forked_for_its_cell (run_sos_workflow w code raw_args k st).2.
Proof.
  intros Hal Hst. rewrite run_sos_workflow_phases.
  assert (∃ r s1, (if od_mem k (g_workflow_queue st)
                   then cancel_workflow w k st else (Returned tt, st)) = (r, s1)
                  ∧ aliased s1 ∧ forked_for_its_cell s1)
    as (r & s1 & -> & Hal1 & Hs1).
  { destruct (od_mem k (g_workflow_queue st)); [|by eauto].
    pose proof (cancel_workflow_forked_for w k st Hst) as Hf.
    assert (aliased (cancel_workflow w k st).2) as Ha.
    { unfold aliased in *.
      destruct (cancel_workflow_config w k st) as [_ ->].
      destruct (cancel_workflow_queue w k st) as [->|[_ ->]];
        [done | by apply Forall_od_pop]. }
    destruct (cancel_workflow w k st) as [r s1]. by exists r, s1. }
  destruct r as [[]|e]; [|done]. cbv zeta.
  set (s2 := set_queue (List.filter (valid w)) _).
  assert (aliased s2) as Hal2.
  { unfold aliased in *. simpl. by apply Forall_list_filter, Forall_od_set. }
  assert (forked_for_its_cell s2) as Hs2.
  { intros cell proc c'. simpl.
    intros [_ Hin]%elem_of_list_filter_valid Hc'.
    apply elem_of_od_set_inv in Hin as [Heq|Hin]; [done|].
    by apply Hs1. }
  clearbody s2.
  destruct (g_workflow_queue s2) as [|[cell0 [c0 a0 l0|proc0]] q'] eqn:Hq2;
    [done| |by apply report_forked_for].
  assert (l0 = env_config s2) as ->.
  { unfold aliased in Hal2. rewrite Hq2 in Hal2. by inversion Hal2. }
  assert (forked_for_its_cell
            (set_heap (alter (set_slave_id cell0) (env_config s2)) s2)) as Hs3.
  { intros cell proc c''. simpl. rewrite lookup_alter_eq.
    destruct (heap s2 !! env_config s2) as [c'|] eqn:Hc'; [|done].
    simpl. intros Hin [= <-].
    destruct (Hs2 cell proc c' Hin Hc') as (c & Hev & Hid & Hsock).
    by exists c. }
  destruct (start_outcome w) as [e|p]; [done|].
  apply report_forked_for. intros cell proc c''. simpl.
  rewrite Hq2, lookup_alter_eq. simpl. rewrite decide_True by done.
  intros [[= <- <-]|Hin]%elem_of_cons Hc''.
  - exists c''. split; [|split; [|done]].
    + apply elem_of_app. right. rewrite Hc''. apply list_elem_of_here.
    + destruct (heap s2 !! env_config s2); simpl in Hc''; [|done].
      by injection Hc'' as <-.
  - destruct (Hs3 cell proc c'') as (c & Hev & ?).
    + simpl. rewrite Hq2. by apply list_elem_of_further.
    + simpl. by rewrite lookup_alter_eq.
    + exists c. split; [|done]. apply elem_of_app. by left.
Qed.

Lemma reachable_forked_for st : reachable st → forked_for_its_cell st.
Proof.
  induction 1 as [h env|st w [code raw_args cell|cell] Hst IH]; simpl.
  - intros cell proc c' Hin. by apply elem_of_nil in Hin.
  - apply run_sos_workflow_forked_for; [|done]. by apply reachable_forked.
  - by apply cancel_workflow_forked_for.
Qed.

(** X9.  The worker behind a handle in the queue answers for the cell that
    holds the handle: it was forked with that cell id as ['slave_id'] and
    with the sockets of [env.config].  Whatever the engine does and
    whenever the worker is killed, it has sent one status at most, and that
    status carries the id of that cell.  When its sockets are set up, it is
    not killed and only an [Exception] is raised, [run] returns and exactly
    one status has been sent. *)
Theorem queued_worker_reports_its_cell (st : State) (cell : string)
    (proc : Tapped_Executor) (c' : Config) (socks : Sockets) :
  reachable st →
  od_get cell (g_workflow_queue st) = Some (Executor proc) →
  heap st !! env_config st = Some c' →
  sockets c' = Some socks →
  ∃ c, start proc (Some c) ∈ events st
       ∧ slave_id c = Some cell
       ∧ sockets c = Some socks
       ∧ (∀ o n,
            let sent := informed (killed_after n
                                    (Tapped_Executor_run o (self_code proc)
                                       (self_args proc))
                                    (forked c)) in
            sent = [] ∨ sent = [completed cell] ∨ ∃ e, sent = [failed cell e])
       ∧ (∀ o m, m ∈ informed (done_events (forked_run o proc c).2) →
                 cell_id m = cell)
       ∧ (∀ o, set_up o socks →
               (∀ e, met o (self_code proc) (self_args proc) (forked c) socks = Some e →
                     is_Exception e = true) →
               (forked_run o proc c).1 = Returned tt
               ∧ ∃ m, informed (done_events (forked_run o proc c).2) = [m]
                      ∧ cell_id m = cell
                      ∧ (m = completed cell ∨ ∃ e, m = failed cell e)).
Proof.
  intros Hst Hget%od_get_elem_of Hc' Hsocks.
  destruct (reachable_forked_for st Hst cell proc c' Hget Hc')
    as (c & Hev & Hid & Hsock).
  assert (answers_for (forked c) = cell) as Hcell.
  { unfold answers_for, forked, self_config_of. simpl. by rewrite Hid. }
  exists c. split_and!; [done|done|congruence| | |].
  - intros o n sent. unfold sent.
    destruct (killed_after_informed n o (self_code proc) (self_args proc) (forked c))
      as (sent' & -> & Hcases).
    by rewrite Hcell in Hcases.
  - intros o m. unfold forked_run.
    destruct (Tapped_Executor_run_informed o (self_code proc) (self_args proc)
                (forked c)) as (evs & -> & Hcases).
    rewrite Hcell in Hcases. simpl.
    destruct Hcases as [->|[->|[e ->]]].
    + intros Hin. by apply elem_of_nil in Hin.
    + by intros ->%list_elem_of_singleton.
    + by intros ->%list_elem_of_singleton.
  - intros o Hup Hexc. unfold forked_run.
    destruct (Tapped_Executor_run_set_up o (self_code proc) (self_args proc)
                (forked c) socks) as [-> ->];
      [unfold forked, self_config_of; simpl; congruence|done|].
    rewrite !informed_app, informed_relayed, informed_terminal, Hcell. simpl.
    destruct (met o _ _ _ socks) as [e|] eqn:Hmet; [|by eauto 10].
    rewrite (Hexc e eq_refl). eauto 10.
Qed.

Lemma queued_worker_reports_its_cell_witness :
  let st := perform_all
              [(world true false (inr 100%Z), submit "print(1)" "-v1" "X");
               (world true false (inr 101%Z), submit "print(2)" "" "Y")]
              sample_import in
  let proc := mkExecutor "print(1)" "-v1" 1%positive 100 in
  reachable st
  ∧ od_get "X" (g_workflow_queue st) = Some (Executor proc)
  ∧ heap st !! env_config st = Some (set_slave_id "X" sample_config)
  ∧ sockets (set_slave_id "X" sample_config) = Some (mkSockets 5001 5002 5003)
  ∧ ∃ c, start proc (Some c) ∈ events st ∧ slave_id c = Some "X".
Proof.
  intros st proc.
  assert (reachable st) as Hst
    by apply reachable_perform_all, sample_import_reachable.
  split_and!; [exact Hst | reflexivity | reflexivity | reflexivity |].
  destruct (queued_worker_reports_its_cell st "X" proc
              (set_slave_id "X" sample_config) (mkSockets 5001 5002 5003) Hst)
    as (c & Hev & Hid & _); [reflexivity..|].
  exists c. split; [exact Hev | exact Hid].
Defined.

(** ** The trace of a worker *)

Lemma Forall_before_close_chunks chunks :
  Forall before_close (send_multipart stdout_socket <$> chunks).
Proof. induction chunks; simpl; by constructor. Qed.

(** X10.  A worker whose config holds the sockets does things in this
    order.  When lines 188-195 raise nothing, it connects both sockets,
    writes the submitted code to the script, relays what the engine prints,
    sends its one terminal status, which when it is failed comes right after
    an ERROR frame with the message on the stdout socket, and closes both
    sockets and the context; when what was raised is not an [Exception], it
    sends no status, closes all the same, and the exception leaves [run].
    When one of lines 188-195 raises, the exception leaves [run] at once:
    the worker has connected the stdout socket at most, and sends and
    closes nothing. *)
Theorem worker_trace_order (o : Engine) (code args : string) (wk : Worker)
    (socks : Sockets) :
  sockets (self_config_of wk) = Some socks →
  let cell := match slave_id (self_config_of wk) with
              | Some cell => cell
              | None => default "" (slave_id (worker_env_config wk))
              end in
  let r := Tapped_Executor_run o code args wk in
  (set_up o socks →
   ∃ relayed terminal,
     done_events r.2
     = (done_events wk
        ++ [connect stdout_socket (tcp (tapping_logging socks));
            connect informer_socket (tcp (tapping_listener socks))]
        ++ relayed ++ terminal ++ closing)%list
     ∧ (relayed = []
        ∨ ∃ chunks, relayed = write (script_file o) code
                              :: (send_multipart stdout_socket <$> chunks))
     ∧ ((r.1 = Returned tt
         ∧ terminal = [send_pyobj informer_socket "workflow_status" (completed cell)])
        ∨ (∃ e, is_Exception e = true
                ∧ r.1 = Returned tt
                ∧ terminal
                  = [send_multipart stdout_socket ["ERROR"; exc_str e];
                     send_pyobj informer_socket "workflow_status" (failed cell e)])
        ∨ (∃ e, is_Exception e = false ∧ r.1 = Raised e ∧ terminal = [])))
  ∧ (¬ set_up o socks →
     ∃ e, r.1 = Raised e
          ∧ (done_events r.2 = done_events wk
             ∨ done_events r.2
               = (done_events wk
                  ++ [connect stdout_socket (tcp (tapping_logging socks))])%list)).
Proof.
  intros Hsocks cell r. split.
  - intros Hup.
    destruct (Tapped_Executor_run_set_up o code args wk socks Hsocks Hup)
      as [Hret Hev].
    exists (relayed o code args wk socks),
      (terminal (answers_for wk) (met o code args wk socks)).
    split_and!; [done| |].
    + unfold relayed. destruct (open_write _ _ _); eauto.
    + unfold r. rewrite Hret. fold cell.
      destruct (met o code args wk socks) as [e|]; [|by left].
      simpl. destruct (is_Exception e) eqn:He; right; [left|right]; by exists e.
  - intros Hdown.
    destruct (Tapped_Executor_run_not_set_up o code args wk)
      as (e & Hret & [Hev|(socks' & Hsocks' & Hev)]).
    + intros socks' Hsocks'. congruence.
    + exists e. by eauto.
    + exists e. split; [done|]. right.
      assert (socks' = socks) as -> by congruence. exact Hev.
Qed.

Lemma worker_trace_order_witness :
  sockets (self_config_of fresh_worker) = Some (mkSockets 5001 5002 5003)
  ∧ set_up (engine (inr 0%Z)) (mkSockets 5001 5002 5003)
  ∧ ∃ relayed terminal,
      done_events (Tapped_Executor_run (engine (inr 0%Z)) "print(1)" ""
                     fresh_worker).2
      = (done_events fresh_worker
         ++ [connect stdout_socket (tcp 5001); connect informer_socket (tcp 5002)]
         ++ relayed ++ terminal ++ closing)%list.
Proof.
  assert (set_up (engine (inr 0%Z)) (mkSockets 5001 5002 5003)) as Hup
    by (repeat split; vm_compute; reflexivity).
  split_and!; [reflexivity | exact Hup |].
  destruct (worker_trace_order (engine (inr 0%Z)) "print(1)" "" fresh_worker
              (mkSockets 5001 5002 5003) eq_refl) as [Hdone _].
  destruct (Hdone Hup) as (relayed & terminal & Hev & _).
  exists relayed, terminal. exact Hev.
Defined.

(** X11.  Once connected, a worker always closes both sockets and the
    context, last of all, whether [run] returns or what was raised leaves
    it.  With no ['slave_id'] in its own config nor in [env.config], the
    key reads as the empty string: when only an [Exception] is raised, [run]
    returns and the one status sent is for the cell [''], and the command
    line names no slave. *)
Theorem worker_always_closes (o : Engine) (code args : string) (wk : Worker)
    (socks : Sockets) :
  sockets (self_config_of wk) = Some socks →
  set_up o socks →
  let r := Tapped_Executor_run o code args wk in
  ∃ evs,
    done_events r.2 = (done_events wk ++ evs ++ closing)%list
    ∧ Forall before_close evs
    ∧ (slave_id (self_config_of wk) = None →
       slave_id (worker_env_config wk) = None →
       (∀ e, met o code args wk socks = Some e → is_Exception e = true) →
       r.1 = Returned tt
       ∧ (∃ m, informed evs = [m]
               ∧ cell_id m = ""
               ∧ (m = completed "" ∨ ∃ e, m = failed "" e))
       ∧ command_of o args wk socks
         = command (script_file o) args "" socks).
Proof.
  intros Hsocks Hup r.
  destruct (Tapped_Executor_run_set_up o code args wk socks Hsocks Hup)
    as [Hret Hev].
  exists ([connect stdout_socket (tcp (tapping_logging socks));
           connect informer_socket (tcp (tapping_listener socks))]
          ++ relayed o code args wk socks
          ++ terminal (answers_for wk) (met o code args wk socks))%list.
  split_and!.
  - unfold r. rewrite Hev. by rewrite <- !(assoc_L (++)).
  - repeat (apply Forall_app; split); [by repeat constructor| |].
    + unfold relayed. destruct (open_write _ _ _); [done|].
      constructor; [done|]. apply Forall_before_close_chunks.
    + unfold terminal. destruct (met o code args wk socks) as [e|];
        [destruct (is_Exception e)|]; by repeat constructor.
  - intros Hself Henv Hexc.
    assert (answers_for wk = "") as ->.
    { unfold answers_for. by rewrite Hself, Henv. }
    split_and!.
    + unfold r. rewrite Hret.
      destruct (met o code args wk socks) as [e|]; [|done]. by rewrite (Hexc e).
    + rewrite !informed_app, informed_relayed, informed_terminal. simpl.
      destruct (met o code args wk socks) as [e|]; [|by eauto 10].
      rewrite (Hexc e eq_refl). eauto 10.
    + unfold command_of. by rewrite Hself.
Qed.

Lemma worker_always_closes_witness :
  let wk := forked sample_config in
  sockets (self_config_of wk) = Some (mkSockets 5001 5002 5003)
  ∧ set_up (engine (inr 0%Z)) (mkSockets 5001 5002 5003)
  ∧ ∃ evs,
      done_events (Tapped_Executor_run (engine (inr 0%Z)) "print(1)" "" wk).2
      = (done_events wk ++ evs ++ closing)%list
      ∧ Forall before_close evs.
Proof.
  intros wk.
  assert (set_up (engine (inr 0%Z)) (mkSockets 5001 5002 5003)) as Hup
    by (repeat split; vm_compute; reflexivity).
  split_and!; [reflexivity | exact Hup |].
  destruct (worker_always_closes (engine (inr 0%Z)) "print(1)" "" wk
              (mkSockets 5001 5002 5003) eq_refl Hup) as (evs & Hev & Hbc & _).
  exists evs. split; [exact Hev | exact Hbc].
Defined.

(** ** Log messages *)

Lemma plain_cons c s :
  plain (String c s) ↔ Ascii.eqb c backtick = false ∧ plain s.
Proof.
  unfold plain. simpl. destruct (Ascii.eqb c backtick); simpl.
  - split; [done | by intros [? _]].
  - destruct (span_plain s) as [x rest]. simpl. split; [done | by intros [_ ?]].
Qed.

Lemma span_plain_app x rest :
  plain x →
  (∀ c rest', rest = String c rest' → Ascii.eqb c backtick = true) →
  span_plain (x +:+ rest) = (x, rest).
Proof.
  intros Hx Hrest. induction x as [|c x IH]; simpl.
  - destruct rest as [|c rest']; [done|]. simpl.
    by rewrite (Hrest c rest' eq_refl).
  - apply plain_cons in Hx as [Hc Hx]. by rewrite Hc, IH.
Qed.

Lemma match_marker_plain c s : Ascii.eqb c backtick = false → match_marker (String c s) = None.
Proof. intros Hc. unfold match_marker. destruct s; [done|]. by rewrite Hc. Qed.

Lemma re_sub_from_plain_app a rest :
  plain a → re_sub_from 0 (a +:+ rest) = a +:+ re_sub_from 0 rest.
Proof.
  intros Ha. induction a as [|c a IH]; [done|].
  apply plain_cons in Ha as [Hc Ha].
  change (String c a +:+ rest) with (String c (a +:+ rest)).
  cbn [re_sub_from]. rewrite (match_marker_plain c _ Hc), IH by done. done.
Qed.

Lemma re_sub_from_skip p rest :
  re_sub_from (String.length p) (p +:+ rest) = re_sub_from 0 rest.
Proof. induction p as [|c p IH]; [done|]. simpl. apply IH. Qed.

Lemma match_marker_closed x rest :
  plain x → match_marker ("``" +:+ x +:+ "``" +:+ rest) = Some x.
Proof.
  intros Hx.
  change ("``" +:+ x +:+ "``" +:+ rest)
    with (String backtick (String backtick (x +:+ "``" +:+ rest))).
  unfold match_marker. rewrite Ascii.eqb_refl. cbn [andb].
  rewrite (span_plain_app x ("``" +:+ rest) Hx); [done|].
  by intros c rest' [= <- _].
Qed.

Lemma length_app_string p q : String.length (p +:+ q) = (String.length p + String.length q)%nat.
Proof. induction p as [|c p IH]; simpl; [done|]. by rewrite IH. Qed.

Lemma append_assoc p q r : (p +:+ q) +:+ r = p +:+ (q +:+ r).
Proof.
  induction p as [|c p IH]; [done|].
  change (String c ((p +:+ q) +:+ r) = String c (p +:+ (q +:+ r))).
  by rewrite IH.
Qed.

Lemma re_sub_marker x rest :
  plain x →
  re_sub_from 0 ("``" +:+ x +:+ "``" +:+ rest)
  = sos_highlight x +:+ re_sub_from 0 rest.
Proof.
  intros Hx.
  pose proof (match_marker_closed x rest Hx) as Hm.
  change ("``" +:+ x +:+ "``" +:+ rest)
    with (String backtick ("`" +:+ x +:+ "``" +:+ rest)) in *.
  cbn [re_sub_from]. rewrite Hm. f_equal.
  replace ("`" +:+ x +:+ "``" +:+ rest) with (("`" +:+ x +:+ "``") +:+ rest).
  - replace (3 + String.length x)%nat with (String.length ("`" +:+ x +:+ "``")).
    + apply re_sub_from_skip.
    + simpl. rewrite !length_app_string. simpl. lia.
  - by rewrite !append_assoc.
Qed.

Lemma re_sub_plain s : plain s → re_sub_from 0 s = s.
Proof.
  intros Hs. induction s as [|c s IH]; [done|].
  apply plain_cons in Hs as [Hc Hs].
  cbn [re_sub_from]. by rewrite (match_marker_plain c _ Hc), IH.
Qed.

Lemma span_plain_plain x : plain x → span_plain x = (x, EmptyString).
Proof.
  intros Hx. induction x as [|c x IH]; [done|]. simpl.
  apply plain_cons in Hx as [Hc Hx]. by rewrite Hc, IH.
Qed.

Lemma re_sub_open x :
  plain x → re_sub_from 0 ("``" +:+ x) = "``" +:+ x.
Proof.
  intros Hx.
  change ("``" +:+ x) with (String backtick (String backtick x)).
  assert (match_marker (String backtick (String backtick x)) = None) as Hm1.
  { unfold match_marker. rewrite Ascii.eqb_refl. cbn [andb].
    by rewrite span_plain_plain. }
  assert (match_marker (String backtick x) = None) as Hm2.
  { unfold match_marker. destruct x as [|c x]; [done|].
    apply plain_cons in Hx as [Hc Hx]. rewrite Hc.
    by rewrite andb_false_r. }
  cbn [re_sub_from]. rewrite Hm1. f_equal.
  destruct x as [|c x]; [done|].
  cbn [re_sub_from]. rewrite Hm2. f_equal. exact (re_sub_plain (String c x) Hx).
Qed.

(** X12.  The substitution of line 46 replaces a marked word in place:
    text without a backtick before the first marker is kept, the text
    between two pairs of backticks goes into a highlight span, and the
    substitution goes on behind the closing pair.  A message without a
    backtick is not changed, and a marker that is never closed is left as
    it is. *)
Theorem re_sub_highlights (a x rest : string) :
  plain a → plain x →
  re_sub (a +:+ "``" +:+ x +:+ "``" +:+ rest)
  = a +:+ sos_highlight x +:+ re_sub rest
  ∧ re_sub a = a
  ∧ re_sub (a +:+ "``" +:+ x) = a +:+ "``" +:+ x.
Proof.
  intros Ha Hx. unfold re_sub. split_and!.
  - by rewrite re_sub_from_plain_app, re_sub_marker.
  - by apply re_sub_plain.
  - by rewrite re_sub_from_plain_app, re_sub_open.
Qed.

Lemma re_sub_highlights_witness :
  plain "step " ∧ plain "sos run"
  ∧ re_sub ("step " +:+ "``" +:+ "sos run" +:+ "``" +:+ " done")
    = "step " +:+ sos_highlight "sos run" +:+ re_sub " done".
Proof.
  split_and!; [reflexivity | reflexivity |].
  apply (re_sub_highlights "step " "sos run" " done"); reflexivity.
Defined.

(** X13.  [emit] sends two messages for a record: the html line, with the
    lower-cased level name as class and the marked words of the message
    highlighted, and then the message as it is, backticks included, on the
    stdout stream.  For a level name of ASCII characters, as [WARNING] and
    the other names of [logging] are, the class is the name with the
    letters [A] to [Z] made small; for any other name it is what the Unicode
    case mapping gives.  A handler built without a kernel raises
    [AttributeError] and sends nothing. *)
Theorem emit_sends_html_and_raw (unicode_lower : string → string)
    (self : NotebookLoggingHandler) (level a x b : string)
    (sent : list KernelEvent) :
  plain a → plain x → plain b →
  let record := mkLogRecord level (a +:+ "``" +:+ x +:+ "``" +:+ b) in
  (is_Some (handler_kernel self) →
   emit_record unicode_lower self record sent
   = (Returned tt,
      (sent ++ [display_data
                  ("<div class=" +:+ dquote +:+ "sos_logging sos_"
                   +:+ lower unicode_lower level
                   +:+ dquote +:+ ">" +:+ level +:+ ": "
                   +:+ (a +:+ sos_highlight x +:+ b) +:+ "</div>")
                  (handler_title self) true "SoS";
                stream "stdout" (a +:+ "``" +:+ x +:+ "``" +:+ b)])%list))
  ∧ (isascii level = true → lower unicode_lower level = ascii_lower level)
  ∧ (isascii level = false → lower unicode_lower level = unicode_lower level)
  ∧ lower unicode_lower "WARNING" = "warning"
  ∧ (handler_kernel self = None →
     emit_record unicode_lower self record sent
     = (Raised (AttributeError
                  "'NoneType' object has no attribute 'send_frontend_msg'"),
        sent)).
Proof.
  intros Ha Hx Hb record. unfold emit_record, record. cbn [record_msg levelname].
  assert (re_sub (a +:+ "``" +:+ x +:+ "``" +:+ b) = a +:+ sos_highlight x +:+ b)
    as ->.
  { unfold re_sub. by rewrite re_sub_from_plain_app, re_sub_marker, re_sub_plain. }
  split_and!.
  - intros [[] ->]. unfold bind, modify. cbv beta iota.
    by rewrite <- (assoc_L (++)).
  - intros Hascii. unfold lower. by rewrite Hascii.
  - intros Hascii. unfold lower. by rewrite Hascii.
  - reflexivity.
  - by intros ->.
Qed.

Lemma emit_sends_html_and_raw_witness :
  let self := mkHandler 20 (Some tt) "Log Messages" in
  plain "step " ∧ plain "a" ∧ plain " done"
  ∧ is_Some (handler_kernel self)
  ∧ emit_record (λ s, s) self (mkLogRecord "INFO" "step ``a`` done") []
    = (Returned tt,
       [display_data
          ("<div class=" +:+ dquote +:+ "sos_logging sos_info" +:+ dquote
           +:+ ">INFO: step " +:+ sos_highlight "a" +:+ " done</div>")
          "Log Messages" true "SoS";
        stream "stdout" "step ``a`` done"]).
Proof.
  intros self. split_and!; [reflexivity | reflexivity | reflexivity | by eexists |].
  destruct (emit_sends_html_and_raw (λ s, s) self "INFO" "step " "a" " done" [])
    as [Hsome _]; [reflexivity..|].
  change (mkLogRecord "INFO" "step ``a`` done")
    with (mkLogRecord "INFO" ("step " +:+ "``" +:+ "a" +:+ "``" +:+ " done")).
  rewrite Hsome; [reflexivity | by eexists].
Defined.

(** ** One worker at a time *)

Lemma events_cancel_workflow w k st :
  ∃ evs, events (cancel_workflow w k st).2 = (events st ++ evs)%list
         ∧ ∀ p cfg, start p cfg ∉ evs.
Proof.
  assert (∀ evs, evs = [aborted k]
                 ∨ (∃ pr, evs = [aborted k; kill_all_subprocesses pr true;
                                 terminate pr]) →
                 ∀ p cfg, start p cfg ∉ evs) as Hno.
  { intros evs [->|[pr ->]] p cfg Hin; unfold aborted in Hin;
      repeat (apply elem_of_cons in Hin as [Hin|Hin]; [discriminate|]);
      by apply elem_of_nil in Hin. }
  rewrite cancel_workflow_cases.
  destruct (od_get k (g_workflow_queue st)) as [[c a l|proc]|]; simpl;
    [eexists; split; [done|apply Hno; by left]| |
     eexists; split; [done|apply Hno; by left]].
  destruct (running w proc); simpl;
    [|eexists; split; [done|apply Hno; by left]].
  destruct (pid_exists_after_kill w (pid proc)); simpl;
    (eexists; split; [done|apply Hno; right; by eexists]).
Qed.

Lemma added_app st st' evs :
  events st' = (events st ++ evs)%list → added st st' = evs.
Proof. intros Hev. unfold added. rewrite Hev. apply drop_app_length. Qed.

Lemma events_report k st :
  ∃ evs, events (report k st).2 = (events st ++ evs)%list
         ∧ ∀ p cfg, start p cfg ∉ evs.
Proof.
  unfold report. destruct (index _ _); simpl.
  - eexists. split; [done|]. intros p cfg Hin. unfold pending in Hin.
    apply elem_of_cons in Hin as [Hin|Hin]; [discriminate|].
    by apply elem_of_nil in Hin.
  - exists []. split; [by rewrite app_nil_r|]. intros p cfg. apply not_elem_of_nil.
Qed.

(** X14.  A worker is started only when the queue holds no live worker:
    whenever [run_sos_workflow] starts one, every worker handle that was in
    the queue answered dead in this call, or was the old worker of the
    submitted cell and was gone after the kill. *)
Theorem start_only_when_idle (w : World) (code raw_args k : string) (st : State)
    (p : Tapped_Executor) (cfg : option Config) :
  reachable st →
  start p cfg ∈ added st (run_sos_workflow w code raw_args k st).2 →
  ∀ cell proc,
    od_get cell (g_workflow_queue st) = Some (Executor proc) →
    running w proc = false
    ∨ (cell = k ∧ pid_exists_after_kill w (pid proc) = false).
Proof.
  intros Hst Hstart cell proc Hcell.
  pose proof (reachable_single_flight st Hst) as Hsf.
  destruct (running w proc) eqn:Hlive; [right|by left].
  destruct (decide (cell = k)) as [->|Hne].
  - split; [done|].
    destruct (pid_exists_after_kill w (pid proc)) eqn:Hkill; [exfalso|done].
    assert (od_mem k (g_workflow_queue st) = true) as Hmem.
    { unfold od_mem. apply bool_decide_eq_true_2. rewrite Hcell. by eexists. }
    revert Hstart. rewrite run_sos_workflow_phases, Hmem.
    rewrite cancel_workflow_cases, Hcell, Hlive, Hkill.
    cbn [snd]. rewrite added_log. unfold aborted. intros Hin.
    repeat (apply elem_of_cons in Hin as [Hin|Hin]; [discriminate|]).
    by apply elem_of_nil in Hin.
  - exfalso. revert Hstart. rewrite run_sos_workflow_phases.
    assert (∃ q, g_workflow_queue st = (cell, Executor proc) :: q) as [q Hq].
    { unfold single_flight in Hsf.
      destruct (g_workflow_queue st) as [|[k' y] q]; [done|]. simpl in *.
      destruct (decide (k' = cell)) as [->|Hk']; [injection Hcell as ->; eauto|].
      apply od_get_elem_of in Hcell. rewrite Forall_forall in Hsf.
      by apply Hsf in Hcell. }
    destruct (cancel_phase w k st)
      as (r & s1 & Hif & Henv & _ & [[-> Hq1]|(-> & Hmem & -> & Hq1)]).
    + assert (∃ evs1, events s1 = (events st ++ evs1)%list
                      ∧ ∀ p cfg, start p cfg ∉ evs1) as (evs1 & Hev1 & Hno1).
      { destruct (od_mem k (g_workflow_queue st)).
        - destruct (events_cancel_workflow w k st) as (evs & Hev & Hno).
          exists evs. by rewrite Hif in Hev.
        - injection Hif as <-. exists []. split; [by rewrite app_nil_r|].
          intros ? ?. apply not_elem_of_nil. }
      rewrite Hif. cbv zeta.
      set (s2 := set_queue (List.filter (valid w)) _).
      assert (events s2 = events s1) as Hev2 by done.
      assert (∃ q', g_workflow_queue s2 = (cell, Executor proc) :: q') as [q' Hq2].
      { simpl. rewrite Hq1, Hq. simpl.
        repeat (rewrite decide_False by done; simpl).
        unfold valid at 1. simpl. rewrite Hlive. eauto. }
      clearbody s2. rewrite Hq2.
      destruct (events_report k s2) as (evs & Hev & Hno).
      rewrite (added_app st _ (evs1 ++ evs)).
      * intros [Hin|Hin]%elem_of_app; [by eapply Hno1 | by eapply Hno].
      * by rewrite Hev, Hev2, Hev1, <- (assoc_L (++)).
    + rewrite Hif.
      destruct (events_cancel_workflow w k st) as (evs & Hev & Hno).
      simpl. rewrite (added_app st _ evs Hev). apply Hno.
Qed.

Lemma start_only_when_idle_witness :
  let st := perform_all
              [(world true false (inr 100%Z), submit "print(1)" "" "X");
               (world true false (inr 101%Z), submit "print(2)" "" "Y")]
              sample_import in
  let w := world false false (inr 102%Z) in
  let p := mkExecutor "print(2)" "" 1%positive 102 in
  let cfg := Some (set_slave_id "Y" sample_config) in
  reachable st
  ∧ start p cfg ∈ added st (run_sos_workflow w "print(3)" "" "Z" st).2
  ∧ running w (mkExecutor "print(1)" "" 1%positive 100) = false.
Proof.
  intros st w p cfg.
  assert (reachable st) as Hst
    by apply reachable_perform_all, sample_import_reachable.
  assert (start p cfg ∈ added st (run_sos_workflow w "print(3)" "" "Z" st).2)
    as Hin by (vm_compute; apply list_elem_of_here).
  split_and!; [exact Hst | exact Hin |].
  destruct (start_only_when_idle w "print(3)" "" "Z" st p cfg Hst Hin "X"
              (mkExecutor "print(1)" "" 1%positive 100) eq_refl)
    as [Hdead|[Hk _]]; [exact Hdead | discriminate Hk].
Defined.
